(** * Sitemap generation of film_press_monitoring

    A shallow embedding of the two [generate_sitemap] functions of the
    repository ([main.py] and [generate_sitemap.py]) and the properties of
    the link scan they perform: filtering, deduplication through the
    [visited] set, the [max_articles] cap and the handling of exceptions. *)

From Stdlib Require Import ZArith Lia.
From stdpp Require Import base decidable list strings gmap sets pretty.

Local Open Scope Z_scope.
#[local] Set Warnings "-clear-no-such-hyp".

(** ** Python strings *)

(** [url.startswith(p)]. *)
Definition startswith (url p : string) : bool := String.prefix p url.

(** [needle in hay] on strings: some suffix of [hay] starts with [needle]. *)
Fixpoint str_in (needle hay : string) : bool :=
  String.prefix needle hay
  || match hay with
     | EmptyString => false
     | String _ rest => str_in needle rest
     end.

(** ** Exceptions and the outcome of a call *)

(** The exception classes as the [except] clause of the source tells them
    apart: [requests.RequestException] with its subclasses (ConnectionError,
    Timeout, HTTPError, ...) and every other exception class.  The argument is
    [str(e)]. *)
Inductive exn : Type :=
| RequestException (msg : string)
| OtherException (msg : string).

Definition str (e : exn) : string :=
  match e with
  | RequestException msg => msg
  | OtherException msg => msg
  end.

Inductive result (A : Type) : Type :=
| Ret (a : A)
| Raise (e : exn).
Arguments Ret {A} a.
Arguments Raise {A} e.

(** Sequencing: an exception raised by [m] skips the rest. *)
#[global] Instance result_bind : MBind result := λ A B k m,
  match m with
  | Ret a => k a
  | Raise e => Raise e
  end.

(** ** The collaborators *)

(** What the code uses of a [requests.Response]: the outcome of
    [response.raise_for_status()] and [response.text]. *)
Record Response : Type := {
  raise_for_status : result unit;
  text : string
}.

(** What the code uses of the parsed document: the [href] values of
    [soup.find_all('a', href=True)], in document order. *)
Definition Soup : Type := list string.

(** What [urljoin(base, url)] gives: the joined URL, or the [ValueError] it
    raises on a URL it cannot split (the bracket of an IPv6 host left open,
    for one).  The argument of [ValueError] is [str(e)]. *)
Inductive joined : Type :=
| Joined (url : string)
| ValueError (msg : string).

(** The libraries the functions call: [requests.get], the constructor
    [BeautifulSoup(_, 'html.parser')] and [urllib.parse.urljoin].  Each of
    them can raise. *)
Record World : Type := {
  requests_get : string -> result Response;
  BeautifulSoup : string -> result Soup;
  urljoin : string -> string -> joined
}.

(** Standard output, one entry per [print]. *)
Definition stdout : Type := list string.

Definition print (line : string) (out : stdout) : stdout := out ++ [line].

(** The two locals the loop updates. *)
Record Frame : Type := {
  visited : gset string;
  sitemap : list string
}.

(** The outcome of one call: what the caller gets, the locals when the call
    ends, and standard output. *)
Record Run : Type := {
  outcome : result (list string);
  frame : Frame;
  output : stdout
}.

(** The part of the [try] block before the loop. *)
Definition fetch_links (w : World) (start_url : string) : result Soup :=
  response ← requests_get w start_url;
  raise_for_status response;;
  BeautifulSoup w (text response).

(** ** main.py *)

Module Main.

Definition base_domain : string := "https://www.kino.de".

Section Loop.
Variable w : World.
Variable max_articles : Z.

(** [for link in soup.find_all('a', href=True): ...] with its [break]: how
    the loop is left and the locals then.  A [ValueError] of [urljoin] leaves
    it at once. *)
Fixpoint for_links (links : list string) (fr : Frame) : result unit * Frame :=
  match links with
  | [] => (Ret tt, fr)
  | href :: rest =>
    match urljoin w base_domain href with
    | ValueError msg => (Raise (OtherException msg), fr)
    | Joined full_url =>
      if startswith full_url base_domain
         && str_in "/news/" full_url
         && negb (bool_decide (full_url ∈ visited fr))
      then
        let fr' := {| visited := {[full_url]} ∪ visited fr;
                      sitemap := sitemap fr ++ [full_url] |} in
        if Z.of_nat (length (sitemap fr')) >=? max_articles
        then (Ret tt, fr')
        else for_links rest fr'
      else for_links rest fr
    end
  end.
End Loop.

(** The [try] block down to the end of the loop. *)
Definition try_block (w : World) (start_url : string) (max_articles : Z)
    : result unit * Frame :=
  let fr0 := {| visited := ∅; sitemap := [] |} in
  match fetch_links w start_url with
  | Ret soup => for_links w max_articles soup fr0
  | Raise e => (Raise e, fr0)
  end.

Definition generate_sitemap_run (w : World) (start_url : string)
    (max_articles : Z) (out : stdout) : Run :=
  match try_block w start_url max_articles with
  | (Ret _, fr) =>
    {| outcome := Ret (sitemap fr);
       frame := fr;
       output := print ("Found " +:+ pretty (length (sitemap fr)) +:+ " URLs") out |}
  | (Raise (RequestException msg as e), fr) =>
    {| outcome := Ret [];
       frame := fr;
       output := print ("Error fetching " +:+ start_url +:+ ": " +:+ str e) out |}
  | (Raise e, fr) =>
    {| outcome := Raise e; frame := fr; output := out |}
  end.

Definition generate_sitemap (w : World) (start_url : string)
    (max_articles : Z) (out : stdout) : result (list string) * stdout :=
  let r := generate_sitemap_run w start_url max_articles out in
  (outcome r, output r).

End Main.

(** ** generate_sitemap.py *)

Module GenerateSitemap.

Definition base_domain : string := "https://www.kino.de".

Definition is_valid_url (url base_domain : string) : bool :=
  startswith url base_domain.

Section Loop.
Variable w : World.
Variable max_articles : Z.

Fixpoint for_links (links : list string) (fr : Frame) : result unit * Frame :=
  match links with
  | [] => (Ret tt, fr)
  | href :: rest =>
    match urljoin w base_domain href with
    | ValueError msg => (Raise (OtherException msg), fr)
    | Joined full_url =>
      if is_valid_url full_url base_domain
         && negb (bool_decide (full_url ∈ visited fr))
      then
        if str_in "/news/" full_url
        then
          let fr' := {| visited := {[full_url]} ∪ visited fr;
                        sitemap := sitemap fr ++ [full_url] |} in
          if Z.of_nat (length (sitemap fr')) >=? max_articles
          then (Ret tt, fr')
          else for_links rest fr'
        else for_links rest fr
      else for_links rest fr
    end
  end.
End Loop.

(** The [try] block down to the end of the loop. *)
Definition try_block (w : World) (start_url : string) (max_articles : Z)
    : result unit * Frame :=
  let fr0 := {| visited := ∅; sitemap := [] |} in
  match fetch_links w start_url with
  | Ret soup => for_links w max_articles soup fr0
  | Raise e => (Raise e, fr0)
  end.

(** After the [except] clause the function returns [sitemap] as it is. *)
Definition generate_sitemap_run (w : World) (start_url : string)
    (max_articles : Z) (out : stdout) : Run :=
  match try_block w start_url max_articles with
  | (Ret _, fr) =>
    {| outcome := Ret (sitemap fr); frame := fr; output := out |}
  | (Raise (RequestException msg as e), fr) =>
    {| outcome := Ret (sitemap fr);
       frame := fr;
       output := print ("Error fetching " +:+ start_url +:+ ": " +:+ str e) out |}
  | (Raise e, fr) =>
    {| outcome := Raise e; frame := fr; output := out |}
  end.

Definition generate_sitemap (w : World) (start_url : string)
    (max_articles : Z) (out : stdout) : result (list string) * stdout :=
  let r := generate_sitemap_run w start_url max_articles out in
  (outcome r, output r).

End GenerateSitemap.

(** ** The computation the specification describes *)

(** A resolved URL passes the two filters. *)
Definition qualifies (url : string) : bool :=
  startswith url Main.base_domain && str_in "/news/" url.

(** Every element is kept where it occurs first and dropped afterwards. *)
Fixpoint first_occurrences (l : list string) : list string :=
  match l with
  | [] => []
  | x :: l' => x :: filter (λ y, y ≠ x) (first_occurrences l')
  end.

(** [urljoin] resolves the hrefs to the URLs, one by one. *)
Definition resolves (w : World) (hrefs urls : list string) : Prop :=
  Forall2 (λ href url, urljoin w Main.base_domain href = Joined url) hrefs urls.

(** Of the resolved URLs, in scan order, keep the qualifying ones at their
    first occurrence and stop at [max_articles] of them. *)
Definition reference_sitemap (urls : list string) (max_articles : Z)
    : list string :=
  take (Z.to_nat max_articles)
       (first_occurrences (filter (λ u, qualifies u) urls)).

(** The number of URLs the loop still takes when it is entered with [n]
    collected: the cap is tested after an append only. *)
Definition slots (max_articles : Z) (n : nat) : nat :=
  Z.to_nat (Z.max 1 (max_articles - Z.of_nat n)).

(** The fetch of [start_url] succeeded and the page holds [hrefs]. *)
Definition fetched (w : World) (start_url : string) (hrefs : list string) : Prop :=
  ∃ response,
    requests_get w start_url = Ret response
    ∧ raise_for_status response = Ret tt
    ∧ BeautifulSoup w (text response) = Ret hrefs.

(** The fetch of [start_url] failed with a [RequestException]: in
    [requests.get] or in [raise_for_status]. *)
Definition fetch_failed (w : World) (start_url : string) (msg : string) : Prop :=
  requests_get w start_url = Raise (RequestException msg)
  ∨ ∃ response,
      requests_get w start_url = Ret response
      ∧ raise_for_status response = Raise (RequestException msg).

(** The parser raised [e] on the fetched content. *)
Definition parse_raised (w : World) (start_url : string) (e : exn) : Prop :=
  ∃ response,
    requests_get w start_url = Ret response
    ∧ raise_for_status response = Ret tt
    ∧ BeautifulSoup w (text response) = Raise e.

Definition empty_frame : Frame := {| visited := ∅; sitemap := [] |}.

(** The URLs accepted once the scan has gone through [links]. *)
Definition accepted_after (w : World) (max_articles : Z) (links : list string)
    : list string :=
  sitemap (Main.for_links w max_articles links empty_frame).2.

(** ** A page for the scenarios *)

Module Scenario.

(** [urljoin] on the two shapes of [href] the scenarios use, for a base
    made of scheme and host: an href that is an absolute path ("/news/a") is
    appended to the base, an href that is an absolute URL with scheme, host
    and path ("https://other.com/news/x") is kept as it is. *)
Definition urljoin_plain (base url : string) : string :=
  if String.prefix "/" url then base +:+ url else url.

Definition ok_response (body : string) : Response :=
  {| raise_for_status := Ret tt; text := body |}.

(** A world whose every fetch succeeds and whose page holds [links]. *)
Definition page (links : list string) : World :=
  {| requests_get := fun _ => Ret (ok_response "<html>");
     BeautifulSoup := fun _ => Ret links;
     urljoin := fun base url => Joined (urljoin_plain base url) |}.

(** The same, with the href on which [urljoin] raises: the bracket of an
    IPv6 host is left open. *)
Definition bracket_page (links : list string) : World :=
  {| requests_get := fun _ => Ret (ok_response "<html>");
     BeautifulSoup := fun _ => Ret links;
     urljoin := fun base url =>
       if String.eqb url "http://[" then ValueError "Invalid IPv6 URL"
       else Joined (urljoin_plain base url) |}.

Definition links1 : list string :=
  ["/news/a"; "/news/a"; "/other/b"; "/news/c"].

(** A world without network: [requests.get] raises a ConnectionError. *)
Definition offline : World :=
  {| requests_get := fun _ => Raise (RequestException "Connection refused");
     BeautifulSoup := fun _ => Ret [];
     urljoin := fun base url => Joined (urljoin_plain base url) |}.

(** A world whose server answers 404: [raise_for_status] raises HTTPError. *)
Definition not_found : World :=
  {| requests_get := fun _ =>
       Ret {| raise_for_status := Raise (RequestException "404 Client Error");
              text := "Not Found" |};
     BeautifulSoup := fun _ => Ret [];
     urljoin := fun base url => Joined (urljoin_plain base url) |}.

(** A world whose parser rejects the markup of the page. *)
Definition rejected : World :=
  {| requests_get := fun _ => Ret (ok_response "<![");
     BeautifulSoup := fun _ => Raise (OtherException "ParserRejectedMarkup");
     urljoin := fun base url => Joined (urljoin_plain base url) |}.

End Scenario.

(** ** The scripts around the sitemap: exceptions, state, collaborators *)

From Stdlib Require Import Ascii.

(** ["\n"] and the double quote. *)
Definition nl : string := String "010"%char "".
Definition dquote : string := String "034"%char "".

(** [s[:n]]. *)
Definition str_slice_to (n : nat) (s : string) : string := String.substring 0 n s.

(** [s * n]. *)
Fixpoint str_mul (s : string) (n : nat) : string :=
  match n with
  | O => ""
  | S n' => s +:+ str_mul s n'
  end.

(** The exception classes as [except Exception] tells them apart: the
    classes derived from [Exception] and the others ([KeyboardInterrupt],
    [SystemExit], ...).  The argument is [str(e)]. *)
Inductive raised : Type :=
| Exception (msg : string)
| BaseException (msg : string).

Inductive completion (A : Type) : Type :=
| Normal (a : A)
| Abrupt (e : raised).
Arguments Normal {A} a.
Arguments Abrupt {A} e.

(** A Python value the scripts only store and format: it is known by its
    [str()]. *)
Record PyObject : Type := { py_str : string }.

(** A dict as the scripts use one: its entries, for lookups, and its
    [str()].  The values of the metadata a loader sets are strings. *)
Record PyDict : Type := {
  items : gmap string string;
  dict_str : string
}.

Module Langchain.

(** What the scripts use of a loaded [Document]. *)
Record Document : Type := {
  page_content : string;
  metadata : PyDict
}.

End Langchain.

(** The collaborators of the scripts.  A call that can answer differently
    each time takes the number of calls made before it. *)
Record Services : Type := {
  (** [WebBaseLoader(url).load()] *)
  WebBaseLoader_load : nat → string → completion (list Langchain.Document);
  (** [FireCrawlLoader(url=url, mode="scrape", api_key=...).load()] *)
  FireCrawlLoader_load : nat → string → completion (list Langchain.Document);
  (** [BeautifulSoup(html, 'html.parser').find('article')] and, when there
      is such an element, its [get_text(separator='\n')] *)
  article_get_text : string → completion (option string);
  (** [datetime.now().isoformat()] *)
  datetime_now_isoformat : nat → string;
  (** [llm.invoke(prompt).content] *)
  llm_invoke : nat → string → completion string;
  (** [eval(source)], taken to have no effect of its own *)
  py_eval : string → completion PyObject;
  (** whether [open(path, 'w')] succeeds; the writes that follow do *)
  open_w : string → completion unit;
  (** [os.makedirs(path, exist_ok=True)] *)
  os_makedirs : string → completion unit;
  (** [os.path.abspath(path)] *)
  os_path_abspath : string → string
}.

(** What the scripts change: standard output, the calls made so far and the
    text files. *)
Record Machine : Type := {
  console : stdout;
  loaded : list string;
  clock_reads : nat;
  prompts : list string;
  disk : gmap string string
}.

Definition Action (A : Type) : Type := Machine → completion A * Machine.

#[global] Instance action_ret : MRet Action := λ A a m, (Normal a, m).

#[global] Instance action_bind : MBind Action := λ A B k act m,
  match act m with
  | (Normal a, m') => k a m'
  | (Abrupt e, m') => (Abrupt e, m')
  end.

(** [raise e]. *)
Definition raise {A : Type} (e : raised) : Action A := λ m, (Abrupt e, m).

(** A collaborator's answer, as an action. *)
Definition answer {A : Type} (c : completion A) : Action A := λ m, (c, m).

(** [try: body  except Exception as e: handler(str(e))]. *)
Definition try_except_Exception {A : Type} (body : Action A)
    (handler : string → Action A) : Action A := λ m,
  match body m with
  | (Abrupt (Exception msg), m') => handler msg m'
  | r => r
  end.

(** [print(line)]. *)
Definition print_line (line : string) : Action unit := λ m,
  (Normal tt,
   {| console := print line (console m); loaded := loaded m;
      clock_reads := clock_reads m; prompts := prompts m; disk := disk m |}).

(** [WebBaseLoader(url).load()]. *)
Definition load (sv : Services) (url : string)
    : Action (list Langchain.Document) := λ m,
  (WebBaseLoader_load sv (length (loaded m)) url,
   {| console := console m; loaded := loaded m ++ [url];
      clock_reads := clock_reads m; prompts := prompts m; disk := disk m |}).

(** [datetime.now().isoformat()]. *)
Definition now_isoformat (sv : Services) : Action string := λ m,
  (Normal (datetime_now_isoformat sv (clock_reads m)),
   {| console := console m; loaded := loaded m;
      clock_reads := S (clock_reads m); prompts := prompts m; disk := disk m |}).

(** [llm.invoke(prompt).content]. *)
Definition invoke (sv : Services) (prompt : string) : Action string := λ m,
  (llm_invoke sv (length (prompts m)) prompt,
   {| console := console m; loaded := loaded m;
      clock_reads := clock_reads m; prompts := prompts m ++ [prompt];
      disk := disk m |}).

(** [with open(path, 'w', encoding='utf-8') as f: f.write(...)], the writes
    put together in [content]: the file is replaced. *)
Definition write_file (sv : Services) (path content : string) : Action unit := λ m,
  match open_w sv path with
  | Normal _ =>
    (Normal tt,
     {| console := console m; loaded := loaded m;
        clock_reads := clock_reads m; prompts := prompts m;
        disk := <[path := content]> (disk m) |})
  | Abrupt e => (Abrupt e, m)
  end.

(** [l[0]]. *)
Definition getitem0 {A : Type} (l : list A) : Action A :=
  match l with
  | x :: _ => mret x
  | [] => raise (Exception "list index out of range")
  end.

(** [str(x)] for an [Optional] value. *)
Definition str_optional {A : Type} (to_str : A → string) (x : option A) : string :=
  match x with
  | Some a => to_str a
  | None => "None"
  end.

(** How a run of a script's [main] ends: it returns, or an exception that
    nothing catches leaves [generate_sitemap] or one of the other steps. *)
Inductive exit : Type :=
| Returned
| UncaughtInSitemap (e : exn)
| Uncaught (e : raised).

(** The state with standard output replaced. *)
Definition with_console (out : stdout) (m : Machine) : Machine :=
  {| console := out; loaded := loaded m; clock_reads := clock_reads m;
     prompts := prompts m; disk := disk m |}.

(** [s.endswith(suffix)]. *)
Fixpoint endswith (s suffix : string) : bool :=
  String.eqb s suffix
  || match s with
     | EmptyString => false
     | String _ rest => endswith rest suffix
     end.

(** ** main.py: crawl, analysis, results *)

Module MainPipeline.

Record FilmDocument : Type := {
  url : string;
  content : string;
  metadata : PyDict;
  timestamp : string;
  relevance_score : option PyObject;
  sentiment : option PyObject;
  summary : option string
}.

(** The body of the [try] in [crawl_websites]. *)
Definition crawl_url (sv : Services) (url : string) : Action FilmDocument :=
  print_line ("Crawling: " +:+ url);;
  docs ← load sv url;
  doc ← getitem0 docs;
  stamp ← now_isoformat sv;
  mret {| url := default url (items (Langchain.metadata doc) !! "source");
          content := Langchain.page_content doc;
          metadata := Langchain.metadata doc;
          timestamp := stamp;
          relevance_score := None;
          sentiment := None;
          summary := None |}.

(** [for url in urls: try: ... except Exception as e: ...; continue]. *)
Fixpoint for_urls (sv : Services) (urls : list string)
    (documents : list FilmDocument) : Action (list FilmDocument) :=
  match urls with
  | [] => mret documents
  | url :: rest =>
    documents' ← try_except_Exception
      (film_doc ← crawl_url sv url; mret (documents ++ [film_doc]))
      (λ msg, print_line ("Error crawling " +:+ url +:+ ": " +:+ msg);;
              mret documents);
    for_urls sv rest documents'
  end.

Definition crawl_websites (sv : Services) (urls : list string)
    : Action (list FilmDocument) :=
  for_urls sv urls [].

(** The f-string of [analyze_sentiment]. *)
Definition sentiment_prompt (text : string) : string :=
  "Analyze the sentiment of the following text and return only a JSON with scores for positive, negative, and neutral (scores should sum to 1.0):"
  +:+ nl +:+ nl
  +:+ "        Text: " +:+ str_slice_to 1000 text +:+ nl
  +:+ "        " +:+ nl
  +:+ "        Return format: {"
  +:+ dquote +:+ "positive" +:+ dquote +:+ ": float, "
  +:+ dquote +:+ "negative" +:+ dquote +:+ ": float, "
  +:+ dquote +:+ "neutral" +:+ dquote +:+ ": float}".

Definition analyze_sentiment (sv : Services) (text : string) : Action PyObject :=
  response ← invoke sv (sentiment_prompt text);
  answer (py_eval sv response).

(** The f-string of [generate_summary]. *)
Definition summary_prompt (text : string) : string :=
  "Summarize the following film-related content in 2-3 sentences:"
  +:+ nl +:+ nl
  +:+ "        " +:+ str_slice_to 2000 text.

Definition generate_summary (sv : Services) (text : string) : Action string :=
  invoke sv (summary_prompt text).

(** [doc.sentiment = value] and [doc.summary = text]. *)
Definition set_sentiment (value : PyObject) (doc : FilmDocument) : FilmDocument :=
  {| url := url doc; content := content doc; metadata := metadata doc;
     timestamp := timestamp doc; relevance_score := relevance_score doc;
     sentiment := Some value; summary := summary doc |}.

Definition set_summary (text : string) (doc : FilmDocument) : FilmDocument :=
  {| url := url doc; content := content doc; metadata := metadata doc;
     timestamp := timestamp doc; relevance_score := relevance_score doc;
     sentiment := sentiment doc; summary := Some text |}.

(** The documents as objects: [analyze_documents] assigns to the objects of
    the list it is given, so a list holds identities and the state of every
    object is kept apart. *)
Definition Objects : Type := nat → FilmDocument.

(** An assignment to an attribute of the object [doc]. *)
Definition assign (change : FilmDocument → FilmDocument) (doc : nat)
    (objects : Objects) : Objects := λ i,
  if decide (doc = i) then change (objects doc) else objects i.

(** [for doc in documents: ...] of [analyze_documents]; the objects are
    given back as the loop leaves them, also when it raises. *)
Fixpoint for_documents (sv : Services) (documents : list nat)
    (objects : Objects) (m : Machine) : completion unit * Objects * Machine :=
  match documents with
  | [] => (Normal tt, objects, m)
  | doc :: rest =>
    match (print_line ("Analyzing: " +:+ url (objects doc));;
           analyze_sentiment sv (content (objects doc))) m with
    | (Abrupt e, m1) => (Abrupt e, objects, m1)
    | (Normal value, m1) =>
      let objects1 := assign (set_sentiment value) doc objects in
      match generate_summary sv (content (objects1 doc)) m1 with
      | (Abrupt e, m2) => (Abrupt e, objects1, m2)
      | (Normal text, m2) =>
        for_documents sv rest (assign (set_summary text) doc objects1) m2
      end
    end
  end.

(** It returns the list it was given. *)
Definition analyze_documents (sv : Services) (documents : list nat)
    (objects : Objects) (m : Machine)
    : completion (list nat) * Objects * Machine :=
  match for_documents sv documents objects m with
  | (Normal _, objects', m') => (Normal documents, objects', m')
  | (Abrupt e, objects', m') => (Abrupt e, objects', m')
  end.

(** What the loop of [save_results] writes. *)
Fixpoint written (documents : list FilmDocument) : string :=
  match documents with
  | [] => ""
  | doc :: rest =>
    ("URL: " +:+ url doc +:+ nl)
    +:+ ("Timestamp: " +:+ timestamp doc +:+ nl)
    +:+ ("Summary: " +:+ str_optional id (summary doc) +:+ nl)
    +:+ ("Sentiment: " +:+ str_optional py_str (sentiment doc) +:+ nl)
    +:+ (nl +:+ "Content Preview:" +:+ nl)
    +:+ (str_slice_to 500 (content doc) +:+ "..." +:+ nl)
    +:+ (str_mul "=" 50 +:+ nl +:+ nl)
    +:+ written rest
  end.

Definition save_results (sv : Services) (documents : list FilmDocument)
    (filename : string) : Action unit :=
  write_file sv filename (written documents).

(** The last loop of [main]. *)
Fixpoint print_summary (documents : list FilmDocument) : Action unit :=
  match documents with
  | [] => mret tt
  | doc :: rest =>
    print_line (nl +:+ "URL: " +:+ url doc);;
    print_line ("Summary: " +:+ str_optional id (summary doc));;
    print_line ("Sentiment: " +:+ str_optional py_str (sentiment doc));;
    print_summary rest
  end.

(** The documents a crawl returns are objects of their own: the object
    [i] is the document at index [i]. *)
Definition objects_of (crawled : list FilmDocument) : Objects := λ i,
  default {| url := ""; content := "";
             metadata := {| items := ∅; dict_str := "{}" |}; timestamp := "";
             relevance_score := None; sentiment := None; summary := None |}
          (crawled !! i).

Definition main (w : World) (sv : Services) (m : Machine) : exit * Machine :=
  let start_url := "https://www.kino.de/news/" in
  match Main.generate_sitemap w start_url 3 (console m) with
  | (Raise e, out) => (UncaughtInSitemap e, with_console out m)
  | (Ret urls, out) =>
    match (documents ← crawl_websites sv urls;
           print_line ("Crawled " +:+ pretty (length documents) +:+ " documents");;
           mret documents) (with_console out m) with
    | (Abrupt e, m1) => (Uncaught e, m1)
    | (Normal documents, m1) =>
      match analyze_documents sv (seq 0 (length documents))
              (objects_of documents) m1 with
      | (Abrupt e, _, m2) => (Uncaught e, m2)
      | (Normal analyzed, objects, m2) =>
        let analyzed_docs := map objects analyzed in
        match (save_results sv analyzed_docs "film_monitoring_results.txt";;
               print_line (nl +:+ "Processing complete!");;
               print_line ("Processed " +:+ pretty (length analyzed_docs)
                           +:+ " documents");;
               print_summary analyzed_docs) m2 with
        | (Abrupt e, m3) => (Uncaught e, m3)
        | (Normal _, m3) => (Returned, m3)
        end
      end
    end
  end.

End MainPipeline.

(** ** generate_sitemap.py: the script *)

Module GenerateSitemapScript.

(** [os.path.join(a, b)], as posixpath has it. *)
Definition os_path_join (a b : string) : string :=
  if startswith b "/" then b
  else if String.eqb a "" || endswith a "/" then a +:+ b
  else a +:+ "/" +:+ b.

(** What the loop over [sitemap] writes: every URL and a line break. *)
Fixpoint written (sitemap : list string) : string :=
  match sitemap with
  | [] => ""
  | url :: rest => (url +:+ nl) +:+ written rest
  end.

Definition output_dir : string :=
  "/Users/mg/Desktop/GitHub/ASTRAL/Code/film_monitoring/Data".

Definition main (w : World) (sv : Services) (m : Machine) : exit * Machine :=
  let start_url := "https://www.kino.de/news/" in
  match GenerateSitemap.generate_sitemap w start_url 10 (console m) with
  | (Raise e, out) => (UncaughtInSitemap e, with_console out m)
  | (Ret sitemap, out) =>
    match (answer (os_makedirs sv output_dir);;
           let output_file := os_path_join output_dir "rough_sitemap.txt" in
           write_file sv output_file (written sitemap);;
           print_line ("Sitemap generated with " +:+ pretty (length sitemap)
                       +:+ " URLs.");;
           print_line ("File saved to: " +:+ os_path_abspath sv output_file))
          (with_console out m) with
    | (Abrupt e, m') => (Uncaught e, m')
    | (Normal _, m') => (Returned, m')
    end
  end.

End GenerateSitemapScript.

(** ** sitemap_crawler.py *)

(** The characters of a string are code points below 256.  [c.isspace()]. *)
Definition isspace (c : ascii) : bool :=
  let n := nat_of_ascii c in
  (Nat.leb 9 n && Nat.leb n 13) || (Nat.leb 28 n && Nat.leb n 32)
  || Nat.eqb n 133 || Nat.eqb n 160.

(** [s.lstrip()], [s.rstrip()] and [s.strip()]. *)
Fixpoint lstrip (s : string) : string :=
  match s with
  | EmptyString => ""
  | String c rest => if isspace c then lstrip rest else s
  end.

Fixpoint rstrip (s : string) : string :=
  match s with
  | EmptyString => ""
  | String c rest =>
    match rstrip rest with
    | EmptyString => if isspace c then "" else String c ""
    | kept => String c kept
    end
  end.

Definition strip (s : string) : string := rstrip (lstrip s).

(** What a text file gives when it is read with the default [newline]: a
    carriage return, alone or before a line feed, is read as a line feed. *)
Fixpoint universal_newlines (s : string) : string :=
  match s with
  | EmptyString => ""
  | String c rest =>
    if Ascii.eqb c "013" then
      match rest with
      | String c' rest' =>
        if Ascii.eqb c' "010" then String "010" (universal_newlines rest')
        else String "010" (universal_newlines rest)
      | EmptyString => String "010" ""
      end
    else String c (universal_newlines rest)
  end.

(** The lines of a text, each with its line feed; the last one may have
    none. *)
Fixpoint split_lines (s : string) : list string :=
  match s with
  | EmptyString => []
  | String c rest =>
    if Ascii.eqb c "010" then String c "" :: split_lines rest
    else match split_lines rest with
         | [] => [String c ""]
         | line :: lines => String c line :: lines
         end
  end.

(** [f.readlines()] on a file that holds [text]. *)
Definition readlines (text : string) : list string :=
  split_lines (universal_newlines text).

(** [open(path, "r", encoding="utf-8")] and the read of the whole file. *)
Definition read_file (path : string) : Action string := λ m,
  match disk m !! path with
  | Some text => (Normal text, m)
  | None =>
    (Abrupt (Exception ("[Errno 2] No such file or directory: '" +:+ path +:+ "'")),
     m)
  end.

Module SitemapCrawler.

Record FilmDocument : Type := {
  url : string;
  content : string;
  metadata : PyDict;
  timestamp : string
}.

Definition crawl_website (sv : Services) (url : string)
    : Action (option FilmDocument) :=
  try_except_Exception
    (print_line ("Attempting to crawl " +:+ url);;
     docs ← load sv url;
     doc ← getitem0 docs;
     stamp ← now_isoformat sv;
     mret (Some {| url := default url (items (Langchain.metadata doc) !! "source");
                   content := Langchain.page_content doc;
                   metadata := Langchain.metadata doc;
                   timestamp := stamp |}))
    (λ msg, print_line ("Error crawling " +:+ url +:+ ": " +:+ msg);;
            mret None).

(** What the loop of [save_to_file] writes. *)
Fixpoint written (documents : list FilmDocument) : string :=
  match documents with
  | [] => ""
  | doc :: rest =>
    ("URL: " +:+ url doc +:+ nl)
    +:+ ("Content length: " +:+ pretty (String.length (content doc))
         +:+ " characters" +:+ nl)
    +:+ ("Metadata: " +:+ dict_str (metadata doc) +:+ nl)
    +:+ (nl +:+ "Content:" +:+ nl)
    +:+ content doc
    +:+ (nl +:+ str_mul "=" 50 +:+ nl)
    +:+ written rest
  end.

Definition save_to_file (sv : Services) (documents : list FilmDocument)
    (filename : string) : Action unit :=
  write_file sv filename (written documents).

(** [for url in urls: doc = crawl_website(url); if doc: documents.append(doc)]. *)
Fixpoint for_urls (sv : Services) (urls : list string)
    (documents : list FilmDocument) : Action (list FilmDocument) :=
  match urls with
  | [] => mret documents
  | url :: rest =>
    doc ← crawl_website sv url;
    for_urls sv rest
      (match doc with
       | Some film_doc => documents ++ [film_doc]
       | None => documents
       end)
  end.

Definition main (sv : Services) : Action unit :=
  text ← read_file "rough_sitemap.txt";
  let urls := map strip (readlines text) in
  documents ← for_urls sv urls [];
  save_to_file sv documents "sitemap_crawler_output.txt".

End SitemapCrawler.

(** A document of main.py, with the attributes a document of
    sitemap_crawler.py has. *)
Definition as_crawler_document (doc : MainPipeline.FilmDocument)
    : SitemapCrawler.FilmDocument :=
  {| SitemapCrawler.url := MainPipeline.url doc;
     SitemapCrawler.content := MainPipeline.content doc;
     SitemapCrawler.metadata := MainPipeline.metadata doc;
     SitemapCrawler.timestamp := MainPipeline.timestamp doc |}.

(** A URL that a line of the sitemap file gives back: no line break in it
    and no white space at its ends. *)
Definition survives_a_line (url : string) : Prop :=
  str_in (String "010" "") url = false
  ∧ str_in (String "013" "") url = false
  ∧ strip url = url.

(** ** fire_crawler.py *)

Module FireCrawler.

Record FilmDocument : Type := {
  url : string;
  content : string;
  metadata : PyDict;
  timestamp : string
}.

Definition extract_content (sv : Services) (html : string) : Action string :=
  article ← answer (article_get_text sv html);
  match article with
  | Some text => mret (strip text)
  | None => mret ""
  end.

(** [FireCrawlLoader(...).load()]. *)
Definition fire_load (sv : Services) (url : string)
    : Action (list Langchain.Document) := λ m,
  (FireCrawlLoader_load sv (length (loaded m)) url,
   {| console := console m; loaded := loaded m ++ [url];
      clock_reads := clock_reads m; prompts := prompts m; disk := disk m |}).

(** [for doc in docs: ... film_docs.append(FilmDocument(...))]. *)
Fixpoint for_docs (sv : Services) (url : string)
    (docs : list Langchain.Document) (film_docs : list FilmDocument)
    : Action (list FilmDocument) :=
  match docs with
  | [] => mret film_docs
  | doc :: rest =>
    content ← extract_content sv (Langchain.page_content doc);
    stamp ← now_isoformat sv;
    for_docs sv url rest
      (film_docs
       ++ [{| url := default url (items (Langchain.metadata doc) !! "sourceURL");
              content := content;
              metadata := Langchain.metadata doc;
              timestamp := stamp |}])
  end.

Definition crawl_website (sv : Services) (url : string)
    : Action (list FilmDocument) :=
  try_except_Exception
    (print_line ("Attempting to crawl " +:+ url);;
     docs ← fire_load sv url;
     for_docs sv url docs [])
    (λ msg, print_line ("Error crawling " +:+ url +:+ ": " +:+ msg);;
            mret []).

(** The loop of [main] over the documents. *)
Fixpoint print_documents (documents : list FilmDocument) : Action unit :=
  match documents with
  | [] => mret tt
  | doc :: rest =>
    print_line (nl +:+ str_mul "=" 50);;
    print_line ("URL: " +:+ url doc);;
    print_line ("Content length: " +:+ pretty (String.length (content doc))
                +:+ " characters");;
    print_line ("Metadata: " +:+ dict_str (metadata doc));;
    print_line (nl +:+ "Content preview:");;
    print_line (if String.eqb (content doc) "" then "No content"
                else content doc +:+ "...");;
    print_documents rest
  end.

Definition main (sv : Services) : Action unit :=
  let url := "https://www.kino.de/news/hochzeit-auf-den-ersten-blick-diese-neuerungen-erwarten-euch-2024/" in
  documents ← crawl_website sv url;
  print_line (nl +:+ "Total documents crawled: " +:+ pretty (length documents));;
  print_documents documents.

End FireCrawler.

(** The document [crawl_websites] makes of a loaded one. *)
Definition film_document (url : string) (doc : Langchain.Document)
    (stamp : string) : MainPipeline.FilmDocument :=
  {| MainPipeline.url := default url (items (Langchain.metadata doc) !! "source");
     MainPipeline.content := Langchain.page_content doc;
     MainPipeline.metadata := Langchain.metadata doc;
     MainPipeline.timestamp := stamp;
     MainPipeline.relevance_score := None;
     MainPipeline.sentiment := None;
     MainPipeline.summary := None |}.


(** No load ends outside the [Exception] classes. *)
Definition loads_within_Exception (sv : Services) : Prop :=
  ∀ n u msg, WebBaseLoader_load sv n u ≠ Abrupt (BaseException msg).


(** ** A newsroom for the examples *)

Module Newsroom.

Definition article (source body : string) : Langchain.Document :=
  {| Langchain.page_content := body;
     Langchain.metadata :=
       {| items := {[ "source" := source ]};
          dict_str := "{'source': '" +:+ source +:+ "'}" |} |}.

(** The loader fails on one address and finds nothing on another; [open]
    is refused under [/readonly]. *)
Definition services : Services :=
  {| WebBaseLoader_load := λ _ url,
       if decide (url = "https://www.kino.de/news/gone")
       then Abrupt (Exception "404 Client Error")
       else if decide (url = "https://www.kino.de/news/blank")
       then Normal []
       else Normal [article url ("Text of " +:+ url)];
     FireCrawlLoader_load := λ _ url,
       Normal [article url "<article> One </article>";
               article url "<p>no article</p>"];
     article_get_text := λ html,
       if String.prefix "<article>" html then Normal (Some " One ")
       else if String.prefix "<p>" html then Normal None
       else Abrupt (Exception "ParserRejectedMarkup");
     datetime_now_isoformat := λ n, "2024-11-04T10:00:0" +:+ pretty n;
     llm_invoke := λ n _, Normal ("answer " +:+ pretty n);
     py_eval := λ source, Normal {| py_str := source |};
     open_w := λ path,
       if String.prefix "/readonly/" path
       then Abrupt (Exception "Permission denied")
       else Normal tt;
     os_makedirs := λ _, Normal tt;
     os_path_abspath := λ path, path |}.

(** The same, with a loader that is interrupted on every call. *)
Definition interrupted : Services :=
  {| WebBaseLoader_load := λ _ _, Abrupt (BaseException "KeyboardInterrupt");
     FireCrawlLoader_load := FireCrawlLoader_load services;
     article_get_text := article_get_text services;
     datetime_now_isoformat := datetime_now_isoformat services;
     llm_invoke := llm_invoke services;
     py_eval := py_eval services;
     open_w := open_w services;
     os_makedirs := os_makedirs services;
     os_path_abspath := os_path_abspath services |}.

(** The same, with a model that refuses its third call. *)
Definition throttled : Services :=
  {| WebBaseLoader_load := WebBaseLoader_load services;
     FireCrawlLoader_load := FireCrawlLoader_load services;
     article_get_text := article_get_text services;
     datetime_now_isoformat := datetime_now_isoformat services;
     llm_invoke := λ n _,
       if decide (n = 2%nat) then Abrupt (Exception "Rate limit reached")
       else Normal ("answer " +:+ pretty n);
     py_eval := py_eval services;
     open_w := open_w services;
     os_makedirs := os_makedirs services;
     os_path_abspath := os_path_abspath services |}.

Definition boot : Machine :=
  {| console := []; loaded := []; clock_reads := 0; prompts := []; disk := ∅ |}.

Definition urls : list string :=
  ["https://www.kino.de/news/a"; "https://www.kino.de/news/gone";
   "https://www.kino.de/news/c"].


(** Two crawled documents, not analysed yet. *)
Definition crawled : list MainPipeline.FilmDocument :=
  [film_document "https://www.kino.de/news/a"
     (article "https://www.kino.de/news/a" "Text of a") "2024-11-04T10:00:00";
   film_document "https://www.kino.de/news/c"
     (article "https://www.kino.de/news/c" "Text of c") "2024-11-04T10:00:01"].

End Newsroom.

(** ** The scenarios of the specification *)

Example scenario1 :
  Main.generate_sitemap (Scenario.page Scenario.links1) "https://www.kino.de/news/" 10 []
  = (Ret ["https://www.kino.de/news/a"; "https://www.kino.de/news/c"],
     ["Found 2 URLs"]).
Proof. vm_compute. reflexivity. Qed.

Example scenario2 :
  GenerateSitemap.generate_sitemap (Scenario.page Scenario.links1) "https://www.kino.de/news/" 1 []
  = (Ret ["https://www.kino.de/news/a"], []).
Proof. vm_compute. reflexivity. Qed.

(** With [max_articles = 0] the first qualifying URL is still collected. *)
Example scenario3 :
  Main.generate_sitemap (Scenario.page Scenario.links1) "https://www.kino.de/news/" 0 []
  = (Ret ["https://www.kino.de/news/a"], ["Found 1 URLs"]).
Proof. vm_compute. reflexivity. Qed.

Example scenario5 :
  GenerateSitemap.generate_sitemap (Scenario.page ["https://other.com/news/x"])
    "https://www.kino.de/news/" 10 []
  = (Ret [], []).
Proof. vm_compute. reflexivity. Qed.

(** ** Strings *)

Lemma prefix_app (p s : string) :
  String.prefix p s = true ↔ ∃ t, s = p +:+ t.
Proof.
  revert s. induction p as [|a p IH]; intros s; simpl.
  - split; [intros _; by exists s | by destruct s].
  - destruct s as [|b s].
    + split; [done | intros [t Ht]; discriminate].
    + simpl. destruct (Ascii.ascii_dec a b) as [->|Hab].
      * rewrite IH. split; intros [t Ht]; exists t.
        -- by rewrite Ht.
        -- by injection Ht.
      * split; [done | intros [t Ht]; by injection Ht].
Qed.

Lemma startswith_spec (url p : string) :
  startswith url p = true ↔ ∃ t, url = p +:+ t.
Proof. apply prefix_app. Qed.

Lemma str_in_spec (needle hay : string) :
  str_in needle hay = true ↔ ∃ pre post, hay = pre +:+ needle +:+ post.
Proof.
  induction hay as [|c hay IH].
  - cbn [str_in]. rewrite orb_false_r, prefix_app. split.
    + intros [t Ht]. by exists EmptyString, t.
    + intros [pre [post H]]. destruct pre; [by exists post | discriminate].
  - cbn [str_in]. rewrite orb_true_iff, prefix_app, IH. split.
    + intros [[t Ht] | [pre [post H]]].
      * by exists EmptyString, t.
      * exists (String c pre), post. simpl. by rewrite H.
    + intros [pre [post H]]. destruct pre as [|d pre].
      * left. by exists post.
      * right. exists pre, post. by injection H.
Qed.

Lemma qualifies_spec (url : string) :
  qualifies url = true
  ↔ (∃ t, url = Main.base_domain +:+ t)
    ∧ (∃ pre post, url = pre +:+ "/news/" +:+ post).
Proof.
  unfold qualifies. by rewrite andb_true_iff, startswith_spec, str_in_spec.
Qed.

(** ** First occurrences *)

Lemma filter_all (P : string → Prop) `{!∀ x, Decision (P x)} (l : list string) :
  (∀ x, P x) → filter P l = l.
Proof.
  intros HP. induction l as [|y l IH]; [done|].
  rewrite filter_cons_True by done. by rewrite IH.
Qed.

Lemma first_occurrences_filter (P : string → Prop) `{!∀ x, Decision (P x)}
    (l : list string) :
  filter P (first_occurrences l) = first_occurrences (filter P l).
Proof.
  induction l as [|y l IH]; [done|].
  cbn [first_occurrences]. rewrite !filter_cons.
  destruct (decide (P y)) as [Hy|Hy].
  - cbn [first_occurrences]. f_equal.
    rewrite <- IH, !list_filter_filter. apply list_filter_iff. naive_solver.
  - rewrite <- IH, list_filter_filter. apply list_filter_iff.
    intros x. split; [naive_solver|]. intros Hx. split; [done|]. by intros ->.
Qed.

Lemma first_occurrences_elem_of (x : string) (l : list string) :
  x ∈ first_occurrences l ↔ x ∈ l.
Proof.
  induction l as [|y l IH]; [done|].
  cbn [first_occurrences]. rewrite !elem_of_cons, list_elem_of_filter, IH.
  destruct (decide (x = y)); naive_solver.
Qed.

Lemma first_occurrences_NoDup (l : list string) : NoDup (first_occurrences l).
Proof.
  induction l as [|y l IH]; cbn [first_occurrences]; [constructor|].
  apply NoDup_cons. split.
  - rewrite list_elem_of_filter. naive_solver.
  - by apply NoDup_filter.
Qed.

(** A later copy of an element changes nothing. *)
Lemma first_occurrences_repeat (x : string) (l1 l2 : list string) :
  x ∈ l1 → first_occurrences (l1 ++ x :: l2) = first_occurrences (l1 ++ l2).
Proof.
  induction l1 as [|y l1 IH]; [by intros ?%elem_of_nil|].
  intros Hx. cbn [app first_occurrences]. f_equal.
  destruct (decide (x = y)) as [->|Hne].
  - rewrite !first_occurrences_filter, !filter_app, filter_cons.
    by destruct (decide (y ≠ y)).
  - apply elem_of_cons in Hx as [?|Hx]; [done|]. by rewrite IH.
Qed.

(** ** The loop *)

Section Candidates.
Variable visited : gset string.

Abbreviation candidates urls :=
  (first_occurrences (filter (λ u, qualifies u) urls)).

Lemma candidates_skip (u : string) (urls : list string) :
  qualifies u = false → candidates (u :: urls) = candidates urls.
Proof.
  intros Hq. rewrite filter_cons. destruct (decide _) as [H|_]; [|done].
  rewrite Hq in H. done.
Qed.

Lemma candidates_seen (u : string) (urls : list string) :
  u ∈ visited →
  filter (λ x, x ∉ visited) (candidates (u :: urls))
  = filter (λ x, x ∉ visited) (candidates urls).
Proof.
  intros Hu. rewrite filter_cons. destruct (decide _) as [_|_]; [|done].
  cbn [first_occurrences]. rewrite filter_cons.
  destruct (decide _) as [?|_]; [done|].
  rewrite list_filter_filter. apply list_filter_iff. set_solver.
Qed.

Lemma candidates_new (u : string) (urls : list string) :
  qualifies u = true → u ∉ visited →
  filter (λ x, x ∉ visited) (candidates (u :: urls))
  = u :: filter (λ x, x ∉ {[u]} ∪ visited) (candidates urls).
Proof.
  intros Hq Hu. rewrite filter_cons. destruct (decide _) as [_|H].
  2:{ rewrite Hq in H. by destruct H. }
  cbn [first_occurrences]. rewrite filter_cons.
  destruct (decide _) as [_|?]; [|done]. f_equal.
  rewrite list_filter_filter. apply list_filter_iff. set_solver.
Qed.
End Candidates.

Lemma slots_succ (max_articles : Z) (n : nat) :
  slots max_articles n = S (pred (slots max_articles n)).
Proof. unfold slots. lia. Qed.

Section LoopFacts.
Variable w : World.
Variable max_articles : Z.

Abbreviation candidates urls :=
  (first_occurrences (filter (λ u, qualifies u) urls)).

(** The nested tests of generate_sitemap.py accept what the single test of
    main.py accepts, and both loops are left alike. *)
Lemma for_links_agree (links : list string) (fr : Frame) :
  GenerateSitemap.for_links w max_articles links fr
  = Main.for_links w max_articles links fr.
Proof.
  revert fr. induction links as [|href links IH]; intros fr; [done|].
  cbn [GenerateSitemap.for_links Main.for_links].
  unfold GenerateSitemap.is_valid_url, GenerateSitemap.base_domain, Main.base_domain.
  destruct (urljoin w _ href) as [full_url|msg]; [|done].
  rewrite !IH.
  destruct (startswith _ _), (str_in _ _), (bool_decide _); done.
Qed.

(** One turn of the loop on an href that [urljoin] resolves. *)
Lemma for_links_cons (href full_url : string) (rest : list string) (fr : Frame) :
  urljoin w Main.base_domain href = Joined full_url →
  Main.for_links w max_articles (href :: rest) fr
  = if qualifies full_url && negb (bool_decide (full_url ∈ visited fr))
    then
      let fr' := {| visited := {[full_url]} ∪ visited fr;
                    sitemap := sitemap fr ++ [full_url] |} in
      if Z.of_nat (length (sitemap fr)) + 1 >=? max_articles
      then (Ret tt, fr')
      else Main.for_links w max_articles rest fr'
    else Main.for_links w max_articles rest fr.
Proof.
  intros Hjoin. cbn [Main.for_links]. rewrite Hjoin. unfold qualifies.
  cbn [sitemap]. rewrite length_app. cbn [length].
  replace (Z.of_nat (length (sitemap fr) + 1)) with (Z.of_nat (length (sitemap fr)) + 1)
    by lia.
  done.
Qed.

(** What the loop has appended when it is left, by a [break], at the end of
    the page or by an exception: the candidates among the URLs it has
    resolved, without those visited before, up to the slots that were
    left. *)
Lemma for_links_sitemap (links : list string) (fr fr' : Frame) (r : result unit) :
  Main.for_links w max_articles links fr = (r, fr') →
  ∃ urls,
    sitemap fr'
    = sitemap fr
      ++ take (slots max_articles (length (sitemap fr)))
              (filter (λ u, u ∉ visited fr) (candidates urls)).
Proof.
  revert fr. induction links as [|href rest IH]; intros fr.
  { cbn. intros [= <- <-]. exists []. cbn. by rewrite take_nil, app_nil_r. }
  destruct (urljoin w Main.base_domain href) as [u|msg] eqn:Hjoin.
  2:{ cbn [Main.for_links]. rewrite Hjoin. intros [= <- <-]. exists [].
      cbn. by rewrite take_nil, app_nil_r. }
  rewrite (for_links_cons _ _ _ _ Hjoin).
  destruct (qualifies u) eqn:Hq; cbn [andb]; [|by apply IH].
  case_bool_decide as Hv; cbn [negb]; [by apply IH|]. cbn zeta.
  destruct (Z.geb_spec (Z.of_nat (length (sitemap fr)) + 1) max_articles) as [Hge|Hlt].
  - intros [= <- <-]. exists [u]. cbn [sitemap].
    rewrite (candidates_new _ _ _ Hq Hv), slots_succ. cbn. by rewrite take_nil.
  - intros [urls Hs]%IH. exists (u :: urls). rewrite Hs. cbn [sitemap visited].
    rewrite (candidates_new _ _ _ Hq Hv), (slots_succ _ (length (sitemap fr))).
    cbn [take]. rewrite <- app_assoc. cbn [app]. do 3 f_equal.
    rewrite length_app. cbn [length]. unfold slots. lia.
Qed.

(** The loop on hrefs that [urljoin] resolves, one and all. *)
Lemma for_links_resolved (links urls : list string) (fr : Frame) :
  resolves w links urls →
  ∃ fr',
    Main.for_links w max_articles links fr = (Ret tt, fr')
    ∧ sitemap fr'
      = sitemap fr
        ++ take (slots max_articles (length (sitemap fr)))
                (filter (λ u, u ∉ visited fr) (candidates urls)).
Proof.
  intros Hres. revert fr.
  induction Hres as [|href u links urls Hjoin _ IH]; intros fr.
  { exists fr. cbn. by rewrite take_nil, app_nil_r. }
  rewrite (for_links_cons _ _ _ _ Hjoin).
  destruct (qualifies u) eqn:Hq; cbn [andb].
  2:{ rewrite (candidates_skip _ _ Hq). apply IH. }
  case_bool_decide as Hv; cbn [negb].
  { rewrite (candidates_seen _ _ _ Hv). apply IH. }
  cbn zeta. rewrite (candidates_new _ _ _ Hq Hv), slots_succ. cbn [take].
  destruct (Z.geb_spec (Z.of_nat (length (sitemap fr)) + 1) max_articles) as [Hge|Hlt].
  - eexists. split; [done|]. cbn [sitemap].
    replace (pred (slots max_articles (length (sitemap fr)))) with 0%nat
      by (unfold slots; lia).
    by rewrite take_0.
  - edestruct IH as (fr' & -> & Hs). exists fr'. split; [done|]. rewrite Hs.
    cbn [sitemap visited]. rewrite <- app_assoc. cbn [app]. do 3 f_equal.
    rewrite length_app. cbn [length]. unfold slots. lia.
Qed.

(** The loop on a page whose first hrefs resolve, bring a new candidate
    and fill the cap: it is left before it comes to the rest. *)
Lemma for_links_cap (scanned rest urls : list string) (fr : Frame) :
  resolves w scanned urls →
  (0 < length (filter (λ u, u ∉ visited fr) (candidates urls)))%nat →
  max_articles
  ≤ Z.of_nat (length (sitemap fr)
              + length (filter (λ u, u ∉ visited fr) (candidates urls))) →
  ∃ fr',
    Main.for_links w max_articles (scanned ++ rest) fr = (Ret tt, fr')
    ∧ sitemap fr'
      = sitemap fr
        ++ take (slots max_articles (length (sitemap fr)))
                (filter (λ u, u ∉ visited fr) (candidates urls)).
Proof.
  intros Hres. revert fr.
  induction Hres as [|href u links urls Hjoin _ IH]; intros fr Hlt Hcap.
  { cbn in Hlt. lia. }
  cbn [app]. rewrite (for_links_cons _ _ _ _ Hjoin).
  destruct (qualifies u) eqn:Hq; cbn [andb].
  2:{ rewrite (candidates_skip _ _ Hq) in *. by apply IH. }
  case_bool_decide as Hv; cbn [negb].
  { rewrite (candidates_seen _ _ _ Hv) in *. by apply IH. }
  cbn zeta. rewrite (candidates_new _ _ _ Hq Hv) in *.
  rewrite slots_succ. cbn [take]. cbn [length] in Hcap.
  destruct (Z.geb_spec (Z.of_nat (length (sitemap fr)) + 1) max_articles) as [Hge|Hlt'].
  - eexists. split; [done|]. cbn [sitemap].
    replace (pred (slots max_articles (length (sitemap fr)))) with 0%nat
      by (unfold slots; lia).
    by rewrite take_0.
  - edestruct (IH {| visited := {[u]} ∪ visited fr; sitemap := sitemap fr ++ [u] |})
      as (fr' & -> & Hs).
    + cbn [sitemap visited]. lia.
    + cbn [sitemap visited]. rewrite length_app. cbn [length]. lia.
    + exists fr'. split; [done|]. rewrite Hs.
      cbn [sitemap visited]. rewrite <- app_assoc. cbn [app]. do 3 f_equal.
      rewrite length_app. cbn [length]. unfold slots. lia.
Qed.

(** The loop on a page whose first hrefs resolve and leave the cap out of
    reach, and whose next href [urljoin] cannot join: the [ValueError] leaves
    the loop. *)
Lemma for_links_urljoin_error (scanned rest urls : list string)
    (href msg : string) (fr : Frame) :
  resolves w scanned urls →
  urljoin w Main.base_domain href = ValueError msg →
  filter (λ u, u ∉ visited fr) (candidates urls) = []
  ∨ Z.of_nat (length (sitemap fr)
              + length (filter (λ u, u ∉ visited fr) (candidates urls)))
    < max_articles →
  (Main.for_links w max_articles (scanned ++ href :: rest) fr).1
  = Raise (OtherException msg).
Proof.
  intros Hres Hhref. revert fr.
  induction Hres as [|h u links urls Hjoin _ IH]; intros fr Hcap.
  { cbn [app Main.for_links]. by rewrite Hhref. }
  cbn [app]. rewrite (for_links_cons _ _ _ _ Hjoin).
  destruct (qualifies u) eqn:Hq; cbn [andb].
  2:{ rewrite (candidates_skip _ _ Hq) in Hcap. by apply IH. }
  case_bool_decide as Hv; cbn [negb].
  { rewrite (candidates_seen _ _ _ Hv) in Hcap. by apply IH. }
  cbn zeta. rewrite (candidates_new _ _ _ Hq Hv) in Hcap.
  destruct Hcap as [[=]|Hcap]. cbn [length] in Hcap.
  destruct (Z.geb_spec (Z.of_nat (length (sitemap fr)) + 1) max_articles)
    as [Hge|Hlt]; [lia|].
  apply IH. right. cbn [sitemap visited]. rewrite length_app. cbn [length]. lia.
Qed.

(** Hrefs that resolve to URLs that do not qualify are passed over. *)
Lemma for_links_unqualified (before links urls : list string) (fr : Frame) :
  resolves w before urls →
  Forall (λ u, qualifies u = false) urls →
  Main.for_links w max_articles (before ++ links) fr
  = Main.for_links w max_articles links fr.
Proof.
  intros Hres. induction Hres as [|href u before urls Hjoin _ IH]; [done|].
  intros [Hq Hrest]%Forall_cons. cbn [app].
  rewrite (for_links_cons _ _ _ _ Hjoin), Hq. cbn [andb]. by apply IH.
Qed.

(** The loop keeps [visited] and [sitemap] in step, however it is left. *)
Lemma for_links_visited (links : list string) (fr fr' : Frame) (r : result unit) :
  (∀ u, u ∈ visited fr ↔ u ∈ sitemap fr) →
  Main.for_links w max_articles links fr = (r, fr') →
  ∀ u, u ∈ visited fr' ↔ u ∈ sitemap fr'.
Proof.
  revert fr. induction links as [|href links IH]; intros fr Hfr.
  { cbn. by intros [= <- <-]. }
  cbn [Main.for_links]. destruct (urljoin w _ href) as [full_url|msg].
  2:{ by intros [= <- <-]. }
  destruct (_ && _ && _); [|by apply IH].
  set (fr1 := {| visited := _; sitemap := _ |}).
  assert (Hfr1 : ∀ u, u ∈ visited fr1 ↔ u ∈ sitemap fr1).
  { intros u. cbn. rewrite elem_of_union, elem_of_singleton, elem_of_app,
      list_elem_of_singleton, Hfr. tauto. }
  destruct (_ >=? _); [by intros [= <- <-] | by apply IH].
Qed.

(** The loop raises what [urljoin] raises, never a [RequestException]. *)
Lemma for_links_raises (links : list string) (fr fr' : Frame) (e : exn) :
  Main.for_links w max_articles links fr = (Raise e, fr') →
  ∃ msg, e = OtherException msg.
Proof.
  revert fr. induction links as [|href links IH]; intros fr.
  { cbn. by intros [=]. }
  cbn [Main.for_links]. destruct (urljoin w _ href) as [full_url|msg].
  2:{ intros [= <- <-]. by exists msg. }
  destruct (_ && _ && _); [|by apply IH].
  destruct (_ >=? _); [by intros [=] | by apply IH].
Qed.
End LoopFacts.

(** Two worlds with the same [urljoin] scan a page alike. *)
Lemma for_links_ext (w w' : World) (max_articles : Z) (links : list string)
    (fr : Frame) :
  (∀ base url, urljoin w' base url = urljoin w base url) →
  Main.for_links w' max_articles links fr = Main.for_links w max_articles links fr.
Proof.
  intros Hjoin. revert fr. induction links as [|href links IH]; intros fr; [done|].
  cbn [Main.for_links]. rewrite Hjoin. destruct (urljoin w _ href); [|done].
  by rewrite !IH.
Qed.

(** An href more, which resolves to a URL accepted before, changes nothing. *)
Lemma for_links_duplicate (w w' : World) (max_articles : Z)
    (before after : list string) (href full_url : string) (fr : Frame) :
  (∀ base url, urljoin w' base url = urljoin w base url) →
  (∀ u, u ∈ visited fr ↔ u ∈ sitemap fr) →
  urljoin w Main.base_domain href = Joined full_url →
  full_url ∈ sitemap (Main.for_links w max_articles before fr).2 →
  Main.for_links w' max_articles (before ++ href :: after) fr
  = Main.for_links w max_articles (before ++ after) fr.
Proof.
  intros Hjoin Hfr Hhref. revert fr Hfr.
  induction before as [|h before IH]; intros fr Hfr Hacc.
  { cbn [app]. cbn in Hacc. apply Hfr in Hacc.
    cbn [Main.for_links]. rewrite Hjoin, Hhref.
    rewrite (bool_decide_eq_true_2 _ Hacc), andb_false_r.
    by apply for_links_ext. }
  cbn [app Main.for_links] in *. rewrite Hjoin.
  destruct (urljoin w Main.base_domain h) as [u|msg]; [|done].
  destruct (_ && _ && _); [|by apply IH].
  set (fr1 := {| visited := _; sitemap := _ |}) in *.
  assert (Hfr1 : ∀ x, x ∈ visited fr1 ↔ x ∈ sitemap fr1).
  { intros x. cbn. rewrite elem_of_union, elem_of_singleton, elem_of_app,
      list_elem_of_singleton, Hfr. tauto. }
  destruct (_ >=? _); [done | by apply IH].
Qed.

(** ** The runs *)

Lemma fetched_links (w : World) (start_url : string) (hrefs : list string) :
  fetched w start_url hrefs → fetch_links w start_url = Ret hrefs.
Proof.
  intros (response & Hget & Hstatus & Hsoup).
  unfold fetch_links. rewrite Hget. cbn. rewrite Hstatus. cbn. done.
Qed.

Lemma fetch_failed_links (w : World) (start_url msg : string) :
  fetch_failed w start_url msg →
  fetch_links w start_url = Raise (RequestException msg).
Proof.
  intros [Hget | (response & Hget & Hstatus)]; unfold fetch_links; rewrite Hget; cbn.
  - done.
  - by rewrite Hstatus.
Qed.

Lemma parse_raised_links (w : World) (start_url : string) (e : exn) :
  parse_raised w start_url e → fetch_links w start_url = Raise e.
Proof.
  intros (response & Hget & Hstatus & Hsoup).
  unfold fetch_links. rewrite Hget. cbn. rewrite Hstatus. cbn. done.
Qed.

Lemma try_block_agree (w : World) (start_url : string) (max_articles : Z) :
  GenerateSitemap.try_block w start_url max_articles
  = Main.try_block w start_url max_articles.
Proof.
  unfold GenerateSitemap.try_block, Main.try_block.
  destruct (fetch_links w start_url); [apply for_links_agree | done].
Qed.

(** A [RequestException] leaves the [try] block before the loop starts. *)
Lemma try_block_request (w : World) (start_url msg : string) (max_articles : Z)
    (fr : Frame) :
  Main.try_block w start_url max_articles = (Raise (RequestException msg), fr) →
  fr = empty_frame.
Proof.
  unfold Main.try_block.
  destruct (fetch_links w start_url) as [soup|e].
  - intros (m & [=])%for_links_raises.
  - by intros [= _ <-].
Qed.

(** When the [try] block is left, [visited] and [sitemap] are in step and
    [sitemap] holds candidates of the page. *)
Lemma try_block_frame (w : World) (start_url : string) (max_articles : Z)
    (r : result unit) (fr : Frame) :
  Main.try_block w start_url max_articles = (r, fr) →
  (∀ u, u ∈ visited fr ↔ u ∈ sitemap fr)
  ∧ ∃ urls,
      sitemap fr
      = take (slots max_articles 0)
             (first_occurrences (filter (λ u, qualifies u) urls)).
Proof.
  unfold Main.try_block.
  destruct (fetch_links w start_url) as [soup|e].
  - intros Hloop. split.
    + eapply for_links_visited; [|exact Hloop].
      intros u. cbn. rewrite elem_of_nil. set_solver.
    + apply for_links_sitemap in Hloop as [urls ->]. exists urls.
      cbn [sitemap visited app length]. f_equal. apply filter_all. set_solver.
  - intros [= _ <-]. split.
    + intros u. cbn. rewrite elem_of_nil. set_solver.
    + exists []. cbn. by rewrite take_nil.
Qed.

(** The two functions hand the same outcome to the caller. *)
Lemma outcome_agree (w : World) (start_url : string) (max_articles : Z)
    (out : stdout) :
  (GenerateSitemap.generate_sitemap w start_url max_articles out).1
  = (Main.generate_sitemap w start_url max_articles out).1.
Proof.
  unfold GenerateSitemap.generate_sitemap, Main.generate_sitemap,
    GenerateSitemap.generate_sitemap_run, Main.generate_sitemap_run.
  rewrite try_block_agree.
  destruct (Main.try_block w start_url max_articles) as [[[]|[msg|msg]] fr] eqn:Hblock;
    cbn; try done.
  by rewrite (try_block_request _ _ _ _ _ Hblock).
Qed.

(** A returned list is empty or a prefix of the candidates among the URLs
    the loop has resolved. *)
Lemma returned_cases (w : World) (start_url : string) (max_articles : Z)
    (out : stdout) (l : list string) :
  (Main.generate_sitemap w start_url max_articles out).1 = Ret l
  ∨ (GenerateSitemap.generate_sitemap w start_url max_articles out).1 = Ret l →
  l = []
  ∨ ∃ urls,
      l = take (slots max_articles 0)
               (first_occurrences (filter (λ u, qualifies u) urls)).
Proof.
  rewrite outcome_agree. intros Hl. assert (H := or_ind id id Hl). clear Hl.
  revert H. unfold Main.generate_sitemap, Main.generate_sitemap_run.
  destruct (Main.try_block w start_url max_articles) as [[[]|[msg|msg]] fr] eqn:Hblock;
    cbn; intros [= <-].
  - right. by apply try_block_frame in Hblock as [_ ?].
  - by left.
Qed.

(** The run after a fetch that succeeds, when the loop returns. *)
Lemma fetched_returns (w : World) (start_url : string) (hrefs : list string)
    (max_articles : Z) (out : stdout) (fr : Frame) :
  fetched w start_url hrefs →
  Main.for_links w max_articles hrefs empty_frame = (Ret tt, fr) →
  Main.generate_sitemap w start_url max_articles out
  = (Ret (sitemap fr),
     print ("Found " +:+ pretty (length (sitemap fr)) +:+ " URLs") out)
  ∧ GenerateSitemap.generate_sitemap w start_url max_articles out
    = (Ret (sitemap fr), out).
Proof.
  intros Hf%fetched_links Hloop.
  unfold GenerateSitemap.generate_sitemap, Main.generate_sitemap,
    GenerateSitemap.generate_sitemap_run, Main.generate_sitemap_run.
  rewrite try_block_agree. unfold Main.try_block. rewrite Hf.
  fold empty_frame. by rewrite Hloop.
Qed.

(** The run after a fetch that succeeds, when [urljoin] raises in the
    loop. *)
Lemma fetched_raises (w : World) (start_url : string) (hrefs : list string)
    (max_articles : Z) (out : stdout) (fr : Frame) (e : exn) :
  fetched w start_url hrefs →
  Main.for_links w max_articles hrefs empty_frame = (Raise e, fr) →
  Main.generate_sitemap w start_url max_articles out = (Raise e, out)
  ∧ GenerateSitemap.generate_sitemap w start_url max_articles out = (Raise e, out).
Proof.
  intros Hf%fetched_links Hloop.
  destruct (for_links_raises _ _ _ _ _ _ Hloop) as [msg ->].
  unfold GenerateSitemap.generate_sitemap, Main.generate_sitemap,
    GenerateSitemap.generate_sitemap_run, Main.generate_sitemap_run.
  rewrite try_block_agree. unfold Main.try_block. rewrite Hf.
  fold empty_frame. by rewrite Hloop.
Qed.

(** ** The properties of the specification *)

(** C1, as stated, fails: on a page whose first href [urljoin] cannot
    split, the fetch succeeds and [max_articles] is positive, but the
    [ValueError] leaves the loop and both functions, which catch a
    [RequestException] only: no list is returned. *)
Lemma urljoin_error_propagates :
  fetched (Scenario.bracket_page ["http://["; "/news/a"])
      "https://www.kino.de/news/" ["http://["; "/news/a"]
  ∧ Main.generate_sitemap (Scenario.bracket_page ["http://["; "/news/a"])
      "https://www.kino.de/news/" 10 []
    = (Raise (OtherException "Invalid IPv6 URL"), [])
  ∧ GenerateSitemap.generate_sitemap (Scenario.bracket_page ["http://["; "/news/a"])
      "https://www.kino.de/news/" 10 []
    = (Raise (OtherException "Invalid IPv6 URL"), []).
Proof.
  split_and!; [|reflexivity..].
  exists (Scenario.ok_response "<html>"). repeat split; reflexivity.
Qed.

(** C1, amended: for a positive [max_articles] and a successful fetch, when
    [urljoin] resolves the hrefs of the page, or those of a leading part of
    it that already holds [max_articles] distinct qualifying URLs, both
    functions return the reference computation on the resolved URLs: in
    scan order, the qualifying URLs kept at their first occurrence, cut at
    [max_articles]; the list is shorter when the page has fewer of them. *)
Theorem generate_sitemap_reference (w : World) (start_url : string)
    (scanned rest urls : list string) (max_articles : Z) (out : stdout) :
  0 < max_articles →
  fetched w start_url (scanned ++ rest) →
  resolves w scanned urls →
  rest = []
  ∨ max_articles
    ≤ Z.of_nat (length (first_occurrences (filter (λ u, qualifies u) urls))) →
  Main.generate_sitemap w start_url max_articles out
  = (Ret (reference_sitemap urls max_articles),
     print ("Found "
            +:+ pretty (length (reference_sitemap urls max_articles))
            +:+ " URLs") out)
  ∧ GenerateSitemap.generate_sitemap w start_url max_articles out
    = (Ret (reference_sitemap urls max_articles), out).
Proof.
  intros Hmax Hf Hres Hstop.
  assert (Hloop : ∃ fr,
    Main.for_links w max_articles (scanned ++ rest) empty_frame = (Ret tt, fr)
    ∧ sitemap fr = reference_sitemap urls max_articles).
  { assert (Hslots : slots max_articles (length (sitemap empty_frame))
                     = Z.to_nat max_articles).
    { unfold slots. cbn. lia. }
    assert (Hnew : ∀ u : string, u ∉ visited empty_frame) by set_solver.
    unfold reference_sitemap. destruct Hstop as [-> | Hcap].
    - rewrite app_nil_r.
      destruct (for_links_resolved w max_articles scanned urls empty_frame Hres)
        as (fr & Hrun & Hs).
      exists fr. split; [done|]. rewrite Hs, Hslots.
      by rewrite (filter_all _ _ Hnew).
    - destruct (for_links_cap w max_articles scanned rest urls empty_frame Hres)
        as (fr & Hrun & Hs).
      + rewrite (filter_all _ _ Hnew). lia.
      + rewrite (filter_all _ _ Hnew). cbn. lia.
      + exists fr. split; [done|]. rewrite Hs, Hslots.
        by rewrite (filter_all _ _ Hnew). }
  destruct Hloop as (fr & Hrun & <-).
  apply (fetched_returns w start_url _ max_articles out fr Hf Hrun).
Qed.

Lemma generate_sitemap_reference_witness :
  Main.generate_sitemap (Scenario.bracket_page ["/news/a"; "http://["])
    "https://www.kino.de/news/" 1 []
  = (Ret ["https://www.kino.de/news/a"], ["Found 1 URLs"]).
Proof.
  refine (proj1 (generate_sitemap_reference
                   (Scenario.bracket_page ["/news/a"; "http://["])
                   "https://www.kino.de/news/" ["/news/a"] ["http://["]
                   ["https://www.kino.de/news/a"] 1 [] _ _ _ _)).
  - lia.
  - exists (Scenario.ok_response "<html>"). repeat split; reflexivity.
  - repeat constructor.
  - right. vm_compute. discriminate.
Defined.

(** C2, as stated, fails: with [max_articles = 0] and a page that holds a
    qualifying link both functions return one URL. *)
Lemma cap_zero_returns_one :
  (Main.generate_sitemap (Scenario.page Scenario.links1)
     "https://www.kino.de/news/" 0 []).1
  = Ret ["https://www.kino.de/news/a"]
  ∧ (GenerateSitemap.generate_sitemap (Scenario.page Scenario.links1)
       "https://www.kino.de/news/" 0 []).1
    = Ret ["https://www.kino.de/news/a"]
  ∧ ¬ (Z.of_nat (length ["https://www.kino.de/news/a"]) ≤ 0).
Proof. repeat split; [vm_compute; reflexivity.. | cbn; lia]. Qed.

(** C2, amended: for every [max_articles] of at least one and every outcome
    of the fetch, a returned list has at most [max_articles] URLs. *)
Theorem generate_sitemap_bound (w : World) (start_url : string)
    (max_articles : Z) (out : stdout) (l : list string) :
  1 ≤ max_articles →
  (Main.generate_sitemap w start_url max_articles out).1 = Ret l
  ∨ (GenerateSitemap.generate_sitemap w start_url max_articles out).1 = Ret l →
  Z.of_nat (length l) ≤ max_articles.
Proof.
  intros Hmax [->|(urls & ->)]%returned_cases; [cbn; lia|].
  rewrite length_take. unfold slots. lia.
Qed.

Lemma generate_sitemap_bound_witness :
  Z.of_nat (length ["https://www.kino.de/news/a"; "https://www.kino.de/news/c"]) ≤ 2.
Proof.
  apply (generate_sitemap_bound (Scenario.page Scenario.links1)
           "https://www.kino.de/news/" 2 []).
  - lia.
  - left. vm_compute. reflexivity.
Defined.

(** C4: when the fetch fails with a [RequestException], raised by
    [requests.get] or by [raise_for_status], both functions return the empty
    list to the caller and print the error. *)
Theorem generate_sitemap_fetch_failure (w : World) (start_url msg : string)
    (max_articles : Z) (out : stdout) :
  fetch_failed w start_url msg →
  Main.generate_sitemap w start_url max_articles out
  = (Ret [], print ("Error fetching " +:+ start_url +:+ ": " +:+ msg) out)
  ∧ GenerateSitemap.generate_sitemap w start_url max_articles out
    = (Ret [], print ("Error fetching " +:+ start_url +:+ ": " +:+ msg) out).
Proof.
  intros Hf%fetch_failed_links.
  unfold GenerateSitemap.generate_sitemap, Main.generate_sitemap,
    GenerateSitemap.generate_sitemap_run, Main.generate_sitemap_run,
    GenerateSitemap.try_block, Main.try_block.
  by rewrite Hf.
Qed.

Lemma generate_sitemap_fetch_failure_witness :
  Main.generate_sitemap Scenario.not_found "https://www.kino.de/news/" 10 []
  = (Ret [], ["Error fetching https://www.kino.de/news/: 404 Client Error"])
  ∧ GenerateSitemap.generate_sitemap Scenario.offline "https://www.kino.de/news/" 10 []
    = (Ret [], ["Error fetching https://www.kino.de/news/: Connection refused"]).
Proof.
  split.
  - refine (proj1 (generate_sitemap_fetch_failure Scenario.not_found
                     "https://www.kino.de/news/" "404 Client Error" 10 [] _)).
    right. eexists. split; reflexivity.
  - refine (proj2 (generate_sitemap_fetch_failure Scenario.offline
                     "https://www.kino.de/news/" "Connection refused" 10 [] _)).
    left. reflexivity.
Defined.

(** C3, as stated, fails: an exception of the parser that is not a
    [RequestException] passes the [except] clause of both functions and
    reaches the caller; nothing is returned and nothing is printed. *)
Lemma parser_exception_propagates :
  parse_raised Scenario.rejected "https://www.kino.de/news/"
    (OtherException "ParserRejectedMarkup")
  ∧ Main.generate_sitemap Scenario.rejected "https://www.kino.de/news/" 10 []
    = (Raise (OtherException "ParserRejectedMarkup"), [])
  ∧ GenerateSitemap.generate_sitemap Scenario.rejected "https://www.kino.de/news/" 10 []
    = (Raise (OtherException "ParserRejectedMarkup"), []).
Proof.
  repeat split; [|reflexivity..].
  exists (Scenario.ok_response "<![" ). repeat split; reflexivity.
Qed.

(** C3, amended: an exception raised while the fetched content is parsed is
    treated like a fetch failure (empty list returned, error printed) exactly
    when it is a [RequestException]; any other exception reaches the caller
    and nothing is printed. *)
Theorem generate_sitemap_parse_failure (w : World) (start_url : string)
    (e : exn) (max_articles : Z) (out : stdout) :
  parse_raised w start_url e →
  let handled :=
    match e with
    | RequestException msg =>
      (Ret [], print ("Error fetching " +:+ start_url +:+ ": " +:+ msg) out)
    | OtherException _ => (Raise e, out)
    end in
  Main.generate_sitemap w start_url max_articles out = handled
  ∧ GenerateSitemap.generate_sitemap w start_url max_articles out = handled.
Proof.
  intros He%parse_raised_links.
  unfold GenerateSitemap.generate_sitemap, Main.generate_sitemap,
    GenerateSitemap.generate_sitemap_run, Main.generate_sitemap_run,
    GenerateSitemap.try_block, Main.try_block.
  rewrite He. by destruct e.
Qed.

Lemma generate_sitemap_parse_failure_witness :
  Main.generate_sitemap Scenario.rejected "https://www.kino.de/news/" 3 ["start"]
  = (Raise (OtherException "ParserRejectedMarkup"), ["start"]).
Proof.
  refine (proj1 (generate_sitemap_parse_failure Scenario.rejected
                   "https://www.kino.de/news/"
                   (OtherException "ParserRejectedMarkup") 3 ["start"] _)).
  exists (Scenario.ok_response "<![" ). repeat split; reflexivity.
Defined.

(** C5: no URL appears twice in a list that [generate_sitemap] returns, for
    every page, every [max_articles] and every outcome of the fetch. *)
Theorem generate_sitemap_NoDup (w : World) (start_url : string)
    (max_articles : Z) (out : stdout) (l : list string) :
  (Main.generate_sitemap w start_url max_articles out).1 = Ret l
  ∨ (GenerateSitemap.generate_sitemap w start_url max_articles out).1 = Ret l →
  NoDup l.
Proof.
  intros [->|(urls & ->)]%returned_cases; [constructor|].
  eapply sublist_NoDup; [apply first_occurrences_NoDup | apply sublist_take].
Qed.

Lemma generate_sitemap_NoDup_witness :
  NoDup ["https://www.kino.de/news/a"; "https://www.kino.de/news/c"].
Proof.
  apply (generate_sitemap_NoDup (Scenario.page Scenario.links1)
           "https://www.kino.de/news/" 10 []).
  right. vm_compute. reflexivity.
Defined.

(** C6: every URL of a returned list starts with the base domain, as a
    string prefix, and contains the substring "/news/". *)
Theorem generate_sitemap_filtered (w : World) (start_url : string)
    (max_articles : Z) (out : stdout) (l : list string) (url : string) :
  (Main.generate_sitemap w start_url max_articles out).1 = Ret l
  ∨ (GenerateSitemap.generate_sitemap w start_url max_articles out).1 = Ret l →
  url ∈ l →
  (∃ t, url = Main.base_domain +:+ t)
  ∧ (∃ pre post, url = pre +:+ "/news/" +:+ post).
Proof.
  intros [->|(urls & ->)]%returned_cases Hurl.
  { by apply elem_of_nil in Hurl. }
  apply qualifies_spec.
  apply elem_of_take in Hurl as (i & Hurl%list_elem_of_lookup_2 & _).
  apply first_occurrences_elem_of, list_elem_of_filter in Hurl as [Hq _].
  by apply Is_true_true.
Qed.

Lemma generate_sitemap_filtered_witness :
  (∃ t, "https://www.kino.de/news/c" = Main.base_domain +:+ t)
  ∧ (∃ pre post, "https://www.kino.de/news/c" = pre +:+ "/news/" +:+ post).
Proof.
  apply (generate_sitemap_filtered (Scenario.page Scenario.links1)
           "https://www.kino.de/news/" 10 []
           ["https://www.kino.de/news/a"; "https://www.kino.de/news/c"]).
  - left. vm_compute. reflexivity.
  - apply elem_of_cons. right. apply elem_of_cons. left. reflexivity.
Defined.

(** C7: when a run ends with a returned list, the [visited] set holds
    exactly the URLs of that list. *)
Theorem generate_sitemap_visited (w : World) (start_url : string)
    (max_articles : Z) (out : stdout) (r : Run) (l : list string) :
  r = Main.generate_sitemap_run w start_url max_articles out
  ∨ r = GenerateSitemap.generate_sitemap_run w start_url max_articles out →
  outcome r = Ret l →
  ∀ url, url ∈ visited (frame r) ↔ url ∈ l.
Proof.
  intros [->| ->];
    unfold Main.generate_sitemap_run, GenerateSitemap.generate_sitemap_run;
    rewrite ?try_block_agree;
    destruct (Main.try_block w start_url max_articles)
      as [[[]|[msg|msg]] fr] eqn:Hblock;
    cbn; intros [= <-];
    try (by apply try_block_frame in Hblock as [? _]).
  apply try_block_request in Hblock as ->. intros url. cbn.
  rewrite elem_of_nil. set_solver.
Qed.

Lemma generate_sitemap_visited_witness :
  "https://www.kino.de/news/c"
    ∈ visited (frame (Main.generate_sitemap_run (Scenario.page Scenario.links1)
                        "https://www.kino.de/news/" 10 []))
  ↔ "https://www.kino.de/news/c"
      ∈ ["https://www.kino.de/news/a"; "https://www.kino.de/news/c"].
Proof.
  apply (generate_sitemap_visited (Scenario.page Scenario.links1)
           "https://www.kino.de/news/" 10 []).
  - left. reflexivity.
  - vm_compute. reflexivity.
Defined.

(** C8: an extra href that resolves to a URL the scan has accepted before it
    reaches the href leaves the returned list as it is: the copy takes none
    of the [max_articles] slots. *)
Theorem generate_sitemap_duplicate (w w' : World) (start_url : string)
    (before after : list string) (href full_url : string) (max_articles : Z)
    (out : stdout) :
  fetched w start_url (before ++ after) →
  fetched w' start_url (before ++ href :: after) →
  (∀ base url, urljoin w' base url = urljoin w base url) →
  urljoin w Main.base_domain href = Joined full_url →
  full_url ∈ accepted_after w max_articles before →
  (Main.generate_sitemap w' start_url max_articles out).1
  = (Main.generate_sitemap w start_url max_articles out).1
  ∧ (GenerateSitemap.generate_sitemap w' start_url max_articles out).1
    = (GenerateSitemap.generate_sitemap w start_url max_articles out).1.
Proof.
  intros Hf%fetched_links Hf'%fetched_links Hjoin Hhref Hacc.
  assert (Hblock : Main.try_block w' start_url max_articles
                   = Main.try_block w start_url max_articles).
  { unfold Main.try_block. rewrite Hf, Hf'. fold empty_frame.
    apply (for_links_duplicate w w' max_articles before after href full_url);
      try done.
    intros u. cbn. rewrite elem_of_nil. set_solver. }
  unfold GenerateSitemap.generate_sitemap, Main.generate_sitemap,
    GenerateSitemap.generate_sitemap_run, Main.generate_sitemap_run.
  by rewrite !try_block_agree, Hblock.
Qed.

Lemma generate_sitemap_duplicate_witness :
  (Main.generate_sitemap
     (Scenario.page ["/news/a"; "https://www.kino.de/news/a"; "/news/c"])
     "https://www.kino.de/news/" 2 []).1
  = (Main.generate_sitemap (Scenario.page ["/news/a"; "/news/c"])
       "https://www.kino.de/news/" 2 []).1.
Proof.
  refine (proj1 (generate_sitemap_duplicate
                   (Scenario.page ["/news/a"; "/news/c"])
                   (Scenario.page ["/news/a"; "https://www.kino.de/news/a"; "/news/c"])
                   "https://www.kino.de/news/"
                   ["/news/a"] ["/news/c"] "https://www.kino.de/news/a"
                   "https://www.kino.de/news/a" 2 [] _ _ _ _ _)).
  - exists (Scenario.ok_response "<html>"). repeat split; reflexivity.
  - exists (Scenario.ok_response "<html>"). repeat split; reflexivity.
  - reflexivity.
  - reflexivity.
  - vm_compute. apply elem_of_cons. left. reflexivity.
Defined.

(** C9: the function of main.py and the function of generate_sitemap.py
    hand the same outcome to the caller, for every seed URL, every
    [max_articles] and every outcome of the fetch. *)
Theorem generate_sitemap_equal (w : World) (start_url : string)
    (max_articles : Z) (out : stdout) :
  (Main.generate_sitemap w start_url max_articles out).1
  = (GenerateSitemap.generate_sitemap w start_url max_articles out).1.
Proof. symmetry. apply outcome_agree. Qed.

(** C10, as stated, fails: with [max_articles <= 0], a fetch that succeeds
    and a page with a qualifying href, no list is returned when [urljoin]
    raises on an href before it. *)
Lemma cap_zero_urljoin_error :
  fetched (Scenario.bracket_page ["http://["; "/news/a"])
      "https://www.kino.de/news/" ["http://["; "/news/a"]
  ∧ (∃ href url,
       href ∈ ["http://["; "/news/a"]
       ∧ urljoin (Scenario.bracket_page ["http://["; "/news/a"])
           Main.base_domain href = Joined url
       ∧ qualifies url = true)
  ∧ Main.generate_sitemap (Scenario.bracket_page ["http://["; "/news/a"])
      "https://www.kino.de/news/" 0 []
    = (Raise (OtherException "Invalid IPv6 URL"), [])
  ∧ GenerateSitemap.generate_sitemap (Scenario.bracket_page ["http://["; "/news/a"])
      "https://www.kino.de/news/" 0 []
    = (Raise (OtherException "Invalid IPv6 URL"), []).
Proof.
  split_and!; [| |reflexivity..].
  - exists (Scenario.ok_response "<html>"). repeat split; reflexivity.
  - exists "/news/a", "https://www.kino.de/news/a". split_and!; [|reflexivity..].
    apply elem_of_cons. right. apply elem_of_cons. by left.
Qed.

(** C10, amended: after a successful fetch a returned list has at most
    [max (max_articles, 1)] URLs; and for [max_articles <= 0], when [urljoin]
    resolves the hrefs of a leading part of the page to URLs of which one
    qualifies, both functions return a list of exactly one URL. *)
Theorem generate_sitemap_cap_after_append (w : World) (start_url : string)
    (scanned rest urls : list string) (max_articles : Z) (out : stdout) :
  fetched w start_url (scanned ++ rest) →
  (∀ l,
     (Main.generate_sitemap w start_url max_articles out).1 = Ret l
     ∨ (GenerateSitemap.generate_sitemap w start_url max_articles out).1 = Ret l →
     Z.of_nat (length l) ≤ Z.max max_articles 1)
  ∧ (max_articles ≤ 0 →
     resolves w scanned urls →
     (∃ url, url ∈ urls ∧ qualifies url = true) →
     ∃ l,
       (Main.generate_sitemap w start_url max_articles out).1 = Ret l
       ∧ (GenerateSitemap.generate_sitemap w start_url max_articles out).1 = Ret l
       ∧ length l = 1%nat).
Proof.
  intros Hf. split.
  - intros l [->|(urls' & ->)]%returned_cases; [cbn; lia|].
    rewrite length_take. unfold slots. lia.
  - intros Hmax Hres (url & Hin & Hq).
    assert (Hnew : ∀ u : string, u ∉ visited empty_frame) by set_solver.
    assert (Hc : url ∈ first_occurrences (filter (λ u, qualifies u) urls)).
    { apply first_occurrences_elem_of, list_elem_of_filter. split; [|done].
      by apply Is_true_true. }
    assert (Hlen : (0 < length (first_occurrences
                                  (filter (λ u, qualifies u) urls)))%nat).
    { destruct (first_occurrences _); [by apply elem_of_nil in Hc | cbn; lia]. }
    destruct (for_links_cap w max_articles scanned rest urls empty_frame Hres)
      as (fr & Hrun & Hs).
    + by rewrite (filter_all _ _ Hnew).
    + cbn. lia.
    + destruct (fetched_returns w start_url _ max_articles out fr Hf Hrun)
        as [-> ->].
      exists (sitemap fr). do 2 (split; [done|]).
      rewrite Hs, (filter_all _ _ Hnew). cbn [sitemap empty_frame app length].
      rewrite length_take. unfold slots. lia.
Qed.

Lemma generate_sitemap_cap_after_append_witness :
  ∃ l,
    (Main.generate_sitemap (Scenario.bracket_page ["/other/b"; "/news/a"; "http://["])
       "https://www.kino.de/news/" (-3) []).1 = Ret l
    ∧ (GenerateSitemap.generate_sitemap
         (Scenario.bracket_page ["/other/b"; "/news/a"; "http://["])
         "https://www.kino.de/news/" (-3) []).1 = Ret l
    ∧ length l = 1%nat.
Proof.
  refine (proj2 (generate_sitemap_cap_after_append
                   (Scenario.bracket_page ["/other/b"; "/news/a"; "http://["])
                   "https://www.kino.de/news/" ["/other/b"; "/news/a"] ["http://["]
                   ["https://www.kino.de/other/b"; "https://www.kino.de/news/a"]
                   (-3) [] _) _ _ _).
  - exists (Scenario.ok_response "<html>"). repeat split; reflexivity.
  - lia.
  - repeat constructor.
  - exists "https://www.kino.de/news/a". split; [|reflexivity].
    apply elem_of_cons. right. apply elem_of_cons. by left.
Defined.

(** ** main.py: the crawl *)

Section Crawl.
Import MainPipeline.
Variable sv : Services.

(** One turn of the loop, by the answer of the loader. *)
Lemma for_urls_cons (url : string) (rest : list string)
    (documents : list FilmDocument) (m : Machine) :
  for_urls sv (url :: rest) documents m
  = let m1 := {| console := print ("Crawling: " +:+ url) (console m);
                 loaded := loaded m ++ [url];
                 clock_reads := clock_reads m;
                 prompts := prompts m;
                 disk := disk m |} in
    let failed msg :=
      for_urls sv rest documents
        {| console := print ("Error crawling " +:+ url +:+ ": " +:+ msg) (console m1);
           loaded := loaded m1;
           clock_reads := clock_reads m1;
           prompts := prompts m1;
           disk := disk m1 |} in
    match WebBaseLoader_load sv (length (loaded m)) url with
    | Normal (doc :: _) =>
      for_urls sv rest
        (documents
         ++ [film_document url doc (datetime_now_isoformat sv (clock_reads m))])
        {| console := console m1;
           loaded := loaded m1;
           clock_reads := S (clock_reads m1);
           prompts := prompts m1;
           disk := disk m1 |}
    | Normal [] => failed "list index out of range"
    | Abrupt (Exception msg) => failed msg
    | Abrupt (BaseException msg) => (Abrupt (BaseException msg), m1)
    end.
Proof.
  cbn [for_urls]. unfold mbind at 1, action_bind, try_except_Exception.
  unfold mbind at 1, action_bind, crawl_url.
  unfold mbind at 1, action_bind, print_line.
  unfold mbind at 1, action_bind, load. cbn [loaded console clock_reads prompts disk].
  destruct (WebBaseLoader_load sv (length (loaded m)) url) as [[|doc docs]|[msg|msg]];
    reflexivity.
Qed.

(** What a crawl that returns has done: a document or an error line for
    every URL, every URL loaded, one clock reading for every document. *)
Lemma for_urls_Normal (urls : list string) (documents result : list FilmDocument)
    (m m' : Machine) :
  for_urls sv urls documents m = (Normal result, m') →
  ∃ new,
    result = documents ++ new
    ∧ (length new ≤ length urls)%nat
    ∧ (length (console m') + length new
       = length (console m) + 2 * length urls)%nat
    ∧ loaded m' = loaded m ++ urls
    ∧ clock_reads m' = (clock_reads m + length new)%nat
    ∧ prompts m' = prompts m
    ∧ disk m' = disk m.
Proof.
  revert documents m.
  induction urls as [|url rest IH]; intros documents m.
  { intros [= <- <-]. exists []. cbn. rewrite !app_nil_r. repeat split; lia. }
  rewrite for_urls_cons. cbn zeta.
  destruct (WebBaseLoader_load sv (length (loaded m)) url)
    as [[|doc docs]|[msg|msg]]; [| | |done].
  - intros (new & -> & Hlen & Hout & Hloaded & Hclock & Hp & Hd)%IH.
    exists new. cbn in *. unfold print in Hout. rewrite !length_app in Hout.
    cbn in Hout. rewrite Hloaded, <- app_assoc. repeat split; try done; lia.
  - intros (new & -> & Hlen & Hout & Hloaded & Hclock & Hp & Hd)%IH.
    exists (film_document url doc (datetime_now_isoformat sv (clock_reads m)) :: new).
    cbn in *. unfold print in Hout. rewrite !length_app in Hout. cbn in Hout.
    rewrite Hloaded, <- !app_assoc. repeat split; try done; lia.
  - intros (new & -> & Hlen & Hout & Hloaded & Hclock & Hp & Hd)%IH.
    exists new. cbn in *. unfold print in Hout. rewrite !length_app in Hout.
    cbn in Hout. rewrite Hloaded, <- app_assoc. repeat split; try done; lia.
Qed.

(** A crawl returns when no load ends outside [Exception]. *)
Lemma for_urls_returns (urls : list string) (documents : list FilmDocument)
    (m : Machine) :
  loads_within_Exception sv →
  ∃ result m', for_urls sv urls documents m = (Normal result, m').
Proof.
  intros Hbase. revert documents m.
  induction urls as [|url rest IH]; intros documents m.
  { by exists documents, m. }
  rewrite for_urls_cons. cbn zeta.
  destruct (WebBaseLoader_load sv (length (loaded m)) url)
    as [[|doc docs]|[msg|msg]] eqn:Hload; try apply IH.
  by apply Hbase in Hload.
Qed.

(** The documents collected before the loop only sit in front. *)
Lemma for_urls_documents (urls : list string) (documents : list FilmDocument)
    (m : Machine) :
  for_urls sv urls documents m
  = match for_urls sv urls [] m with
    | (Normal new, m') => (Normal (documents ++ new), m')
    | (Abrupt e, m') => (Abrupt e, m')
    end.
Proof.
  revert documents m. induction urls as [|url rest IH]; intros documents m.
  { cbn. by rewrite app_nil_r. }
  rewrite !for_urls_cons. cbn zeta.
  destruct (WebBaseLoader_load sv (length (loaded m)) url)
    as [[|doc docs]|[msg|msg]]; try done.
  rewrite IH. rewrite (IH ([] ++ _)).
  destruct (for_urls sv rest [] _) as [[new|e] m']; [|done].
  by rewrite <- app_assoc.
Qed.

Lemma for_urls_app (urls1 urls2 : list string) (documents : list FilmDocument)
    (m : Machine) :
  for_urls sv (urls1 ++ urls2) documents m
  = match for_urls sv urls1 documents m with
    | (Normal documents', m') => for_urls sv urls2 documents' m'
    | (Abrupt e, m') => (Abrupt e, m')
    end.
Proof.
  revert documents m. induction urls1 as [|url rest IH]; intros documents m.
  { done. }
  cbn [app]. rewrite !for_urls_cons. cbn zeta.
  destruct (WebBaseLoader_load sv (length (loaded m)) url)
    as [[|doc docs]|[msg|msg]]; by rewrite ?IH.
Qed.
End Crawl.

(** X1: when no load ends outside the [Exception] classes, [crawl_websites]
    returns, whatever fails on the way, and it has loaded every URL of its
    argument once and in order; it returns at most one document for a URL. *)
Theorem crawl_websites_loads_every_url (sv : Services) (urls : list string)
    (m : Machine) :
  loads_within_Exception sv →
  ∃ documents m',
    MainPipeline.crawl_websites sv urls m = (Normal documents, m')
    ∧ loaded m' = loaded m ++ urls
    ∧ (length documents ≤ length urls)%nat.
Proof.
  intros Hbase. unfold MainPipeline.crawl_websites.
  destruct (for_urls_returns sv urls [] m Hbase) as (result & m' & Hrun).
  exists result, m'. split; [done|].
  apply for_urls_Normal in Hrun as (new & -> & ? & _ & ? & _). done.
Qed.

Lemma crawl_websites_loads_every_url_witness :
  ∃ documents m',
    MainPipeline.crawl_websites Newsroom.services Newsroom.urls Newsroom.boot
    = (Normal documents, m')
    ∧ loaded m' = loaded Newsroom.boot ++ Newsroom.urls
    ∧ (length documents ≤ length Newsroom.urls)%nat.
Proof.
  apply (crawl_websites_loads_every_url Newsroom.services Newsroom.urls Newsroom.boot).
  intros n u msg. cbn. repeat case_decide; discriminate.
Defined.

(** X2: when [crawl_websites] returns, every URL has printed its "Crawling"
    line and then either given a document or printed one error line, and the
    clock was read once for each document; no prompt was sent and no file
    was written. *)
Theorem crawl_websites_document_or_error (sv : Services) (urls : list string)
    (m m' : Machine) (documents : list MainPipeline.FilmDocument) :
  MainPipeline.crawl_websites sv urls m = (Normal documents, m') →
  (length (console m') + length documents
   = length (console m) + 2 * length urls)%nat
  ∧ clock_reads m' = (clock_reads m + length documents)%nat
  ∧ prompts m' = prompts m
  ∧ disk m' = disk m.
Proof.
  intros (new & -> & _ & Hout & _ & Hclock & Hp & Hd)%for_urls_Normal.
  done.
Qed.

Lemma crawl_websites_document_or_error_witness :
  (length (console (MainPipeline.crawl_websites Newsroom.services Newsroom.urls
                      Newsroom.boot).2) + 2
   = length (console Newsroom.boot) + 2 * length Newsroom.urls)%nat.
Proof.
  refine (proj1 (crawl_websites_document_or_error Newsroom.services Newsroom.urls
                   Newsroom.boot _
                   [film_document "https://www.kino.de/news/a"
                      (Newsroom.article "https://www.kino.de/news/a"
                         "Text of https://www.kino.de/news/a")
                      "2024-11-04T10:00:00";
                    film_document "https://www.kino.de/news/c"
                      (Newsroom.article "https://www.kino.de/news/c"
                         "Text of https://www.kino.de/news/c")
                      "2024-11-04T10:00:01"] _)).
  vm_compute. reflexivity.
Defined.

(** When every load finds a document, the loop adds one document for every
    URL, in order. *)
Lemma for_urls_all_loaded (sv : Services) (urls : list string)
    (documents : list MainPipeline.FilmDocument) (m : Machine) :
  (∀ i u, urls !! i = Some u →
     ∃ doc rest,
       WebBaseLoader_load sv (length (loaded m) + i) u = Normal (doc :: rest)) →
  ∃ new m',
    MainPipeline.for_urls sv urls documents m = (Normal (documents ++ new), m')
    ∧ length new = length urls
    ∧ ∀ i u, urls !! i = Some u →
        ∃ doc rest,
          WebBaseLoader_load sv (length (loaded m) + i) u = Normal (doc :: rest)
          ∧ new !! i
            = Some (film_document u doc
                      (datetime_now_isoformat sv (clock_reads m + i))).
Proof.
  revert documents m. induction urls as [|url rest IH]; intros documents m Hall.
  { exists [], m. cbn. rewrite app_nil_r. repeat split. intros i u. by rewrite lookup_nil. }
  rewrite for_urls_cons. cbn zeta.
  destruct (Hall 0%nat url eq_refl) as (doc & others & Hload).
  rewrite Nat.add_0_r in Hload. rewrite Hload.
  edestruct IH as (new & m' & -> & Hlen & Hnew).
  { intros i u Hu. cbn [loaded]. rewrite length_app. cbn [length].
    replace (length (loaded m) + 1 + i)%nat with (length (loaded m) + S i)%nat by lia.
    by apply (Hall (S i)). }
  eexists (_ :: new), m'. rewrite <- app_assoc. split; [done|].
  split; [cbn; by rewrite Hlen|].
  intros [|i] u Hu.
  - injection Hu as <-. exists doc, others. rewrite !Nat.add_0_r. done.
  - destruct (Hnew i u Hu) as (doc' & rest' & Hload' & Hi).
    cbn [loaded clock_reads] in *. rewrite length_app in Hload'. cbn [length] in Hload'.
    replace (length (loaded m) + S i)%nat with (length (loaded m) + 1 + i)%nat by lia.
    replace (clock_reads m + S i)%nat with (S (clock_reads m) + i)%nat by lia.
    by exists doc', rest'.
Qed.

(** X3: when every load finds at least one document, [crawl_websites]
    returns one document for every URL, in the order of the URLs: the
    content and the metadata are those of the first loaded document, the
    url is its "source" entry, or the crawled URL when it has none, and the
    timestamps are successive readings of the clock. *)
Theorem crawl_websites_all_loaded (sv : Services) (urls : list string)
    (m : Machine) :
  (∀ i u, urls !! i = Some u →
     ∃ doc rest,
       WebBaseLoader_load sv (length (loaded m) + i) u = Normal (doc :: rest)) →
  ∃ documents m',
    MainPipeline.crawl_websites sv urls m = (Normal documents, m')
    ∧ length documents = length urls
    ∧ ∀ i u, urls !! i = Some u →
        ∃ doc rest,
          WebBaseLoader_load sv (length (loaded m) + i) u = Normal (doc :: rest)
          ∧ documents !! i
            = Some {| MainPipeline.url :=
                        default u (items (Langchain.metadata doc) !! "source");
                      MainPipeline.content := Langchain.page_content doc;
                      MainPipeline.metadata := Langchain.metadata doc;
                      MainPipeline.timestamp :=
                        datetime_now_isoformat sv (clock_reads m + i);
                      MainPipeline.relevance_score := None;
                      MainPipeline.sentiment := None;
                      MainPipeline.summary := None |}.
Proof.
  intros Hall. apply (for_urls_all_loaded sv urls [] m Hall).
Qed.

Lemma crawl_websites_all_loaded_witness :
  ∃ documents m',
    MainPipeline.crawl_websites Newsroom.services
      ["https://www.kino.de/news/a"; "https://www.kino.de/news/c"] Newsroom.boot
    = (Normal documents, m')
    ∧ length documents = 2%nat
    ∧ ∀ i u, ["https://www.kino.de/news/a"; "https://www.kino.de/news/c"] !! i = Some u →
        ∃ doc rest,
          WebBaseLoader_load Newsroom.services (length (loaded Newsroom.boot) + i) u
          = Normal (doc :: rest)
          ∧ documents !! i
            = Some {| MainPipeline.url :=
                        default u (items (Langchain.metadata doc) !! "source");
                      MainPipeline.content := Langchain.page_content doc;
                      MainPipeline.metadata := Langchain.metadata doc;
                      MainPipeline.timestamp :=
                        datetime_now_isoformat Newsroom.services
                          (clock_reads Newsroom.boot + i);
                      MainPipeline.relevance_score := None;
                      MainPipeline.sentiment := None;
                      MainPipeline.summary := None |}.
Proof.
  apply (crawl_websites_all_loaded Newsroom.services
           ["https://www.kino.de/news/a"; "https://www.kino.de/news/c"] Newsroom.boot).
  intros [|[|i]] u Hu; [| |by destruct i]; injection Hu as <-;
    eexists _, _; vm_compute; split; reflexivity.
Defined.

(** X4: crawling a list of URLs is crawling its first part and then, from
    the state this leaves, the rest: the documents are put one behind the
    other, and an exception that ends the first part ends the whole. *)
Theorem crawl_websites_app (sv : Services) (urls1 urls2 : list string)
    (m : Machine) :
  MainPipeline.crawl_websites sv (urls1 ++ urls2) m
  = match MainPipeline.crawl_websites sv urls1 m with
    | (Normal documents1, m1) =>
      match MainPipeline.crawl_websites sv urls2 m1 with
      | (Normal documents2, m2) => (Normal (documents1 ++ documents2), m2)
      | (Abrupt e, m2) => (Abrupt e, m2)
      end
    | (Abrupt e, m1) => (Abrupt e, m1)
    end.
Proof.
  unfold MainPipeline.crawl_websites. rewrite for_urls_app.
  destruct (MainPipeline.for_urls sv urls1 [] m) as [[documents1|e] m1]; [|done].
  apply for_urls_documents.
Qed.

(** X5: an exception of a load that is not derived from [Exception] is not
    caught: it ends the crawl at that URL, no later URL is loaded and the
    documents collected so far are not returned. *)
Theorem crawl_websites_interrupted (sv : Services) (urls1 urls2 : list string)
    (url msg : string) (m m1 : Machine)
    (documents : list MainPipeline.FilmDocument) :
  MainPipeline.crawl_websites sv urls1 m = (Normal documents, m1) →
  WebBaseLoader_load sv (length (loaded m1)) url = Abrupt (BaseException msg) →
  MainPipeline.crawl_websites sv (urls1 ++ url :: urls2) m
  = (Abrupt (BaseException msg),
     {| console := print ("Crawling: " +:+ url) (console m1);
        loaded := loaded m1 ++ [url];
        clock_reads := clock_reads m1;
        prompts := prompts m1;
        disk := disk m1 |}).
Proof.
  intros H1 Hload. unfold MainPipeline.crawl_websites in *.
  rewrite for_urls_app, H1, for_urls_cons. cbn zeta. by rewrite Hload.
Qed.

Lemma crawl_websites_interrupted_witness :
  MainPipeline.crawl_websites Newsroom.interrupted
    ([] ++ "https://www.kino.de/news/a" :: ["https://www.kino.de/news/c"])
    Newsroom.boot
  = (Abrupt (BaseException "KeyboardInterrupt"),
     {| console := ["Crawling: https://www.kino.de/news/a"];
        loaded := ["https://www.kino.de/news/a"];
        clock_reads := 0;
        prompts := [];
        disk := ∅ |}).
Proof.
  apply (crawl_websites_interrupted Newsroom.interrupted []
           ["https://www.kino.de/news/c"] "https://www.kino.de/news/a"
           "KeyboardInterrupt" Newsroom.boot Newsroom.boot []);
    reflexivity.
Defined.

(** X6: a URL whose load raises an exception derived from [Exception], or
    finds no document (the index 0 is then out of range), gives no document:
    the error is printed with the URL and the crawl goes on with the next
    URL. *)
Theorem crawl_websites_skips (sv : Services) (urls1 urls2 : list string)
    (url msg : string) (m m1 : Machine)
    (documents : list MainPipeline.FilmDocument) :
  MainPipeline.crawl_websites sv urls1 m = (Normal documents, m1) →
  WebBaseLoader_load sv (length (loaded m1)) url = Abrupt (Exception msg)
  ∨ (WebBaseLoader_load sv (length (loaded m1)) url = Normal []
     ∧ msg = "list index out of range") →
  MainPipeline.crawl_websites sv (urls1 ++ url :: urls2) m
  = match MainPipeline.crawl_websites sv urls2
            {| console := print ("Error crawling " +:+ url +:+ ": " +:+ msg)
                            (print ("Crawling: " +:+ url) (console m1));
               loaded := loaded m1 ++ [url];
               clock_reads := clock_reads m1;
               prompts := prompts m1;
               disk := disk m1 |} with
    | (Normal documents2, m2) => (Normal (documents ++ documents2), m2)
    | (Abrupt e, m2) => (Abrupt e, m2)
    end.
Proof.
  intros H1 Hload. unfold MainPipeline.crawl_websites in *.
  rewrite for_urls_app, H1, for_urls_cons. cbn zeta.
  destruct Hload as [-> | [-> ->]]; apply for_urls_documents.
Qed.

Lemma crawl_websites_skips_witness :
  MainPipeline.crawl_websites Newsroom.services
    (["https://www.kino.de/news/a"]
     ++ "https://www.kino.de/news/blank" :: ["https://www.kino.de/news/c"])
    Newsroom.boot
  = (Normal
       [film_document "https://www.kino.de/news/a"
          (Newsroom.article "https://www.kino.de/news/a"
             "Text of https://www.kino.de/news/a") "2024-11-04T10:00:00";
        film_document "https://www.kino.de/news/c"
          (Newsroom.article "https://www.kino.de/news/c"
             "Text of https://www.kino.de/news/c") "2024-11-04T10:00:01"],
     {| console :=
          ["Crawling: https://www.kino.de/news/a";
           "Crawling: https://www.kino.de/news/blank";
           "Error crawling https://www.kino.de/news/blank: list index out of range";
           "Crawling: https://www.kino.de/news/c"];
        loaded := ["https://www.kino.de/news/a"; "https://www.kino.de/news/blank";
                   "https://www.kino.de/news/c"];
        clock_reads := 2;
        prompts := [];
        disk := ∅ |}).
Proof.
  etransitivity.
  - eapply (crawl_websites_skips Newsroom.services ["https://www.kino.de/news/a"]
              ["https://www.kino.de/news/c"] "https://www.kino.de/news/blank"
              "list index out of range" Newsroom.boot).
    + vm_compute. reflexivity.
    + right. split; reflexivity.
  - vm_compute. reflexivity.
Defined.

(** ** main.py: the analysis *)





Section Analysis.
Import MainPipeline.
Variable sv : Services.

(** One turn of the loop of [analyze_documents], by the answers of the
    model and of [eval]. *)
Lemma for_documents_cons (doc : nat) (rest : list nat) (objects : Objects)
    (m : Machine) :
  for_documents sv (doc :: rest) objects m
  = let text := content (objects doc) in
    let after sent :=
      {| console := print ("Analyzing: " +:+ url (objects doc)) (console m);
         loaded := loaded m;
         clock_reads := clock_reads m;
         prompts := prompts m ++ sent;
         disk := disk m |} in
    match llm_invoke sv (length (prompts m)) (sentiment_prompt text) with
    | Abrupt e => (Abrupt e, objects, after [sentiment_prompt text])
    | Normal response =>
      match py_eval sv response with
      | Abrupt e => (Abrupt e, objects, after [sentiment_prompt text])
      | Normal value =>
        let objects1 := assign (set_sentiment value) doc objects in
        match llm_invoke sv (S (length (prompts m))) (summary_prompt text) with
        | Abrupt e =>
          (Abrupt e, objects1, after [sentiment_prompt text; summary_prompt text])
        | Normal answer_text =>
          for_documents sv rest (assign (set_summary answer_text) doc objects1)
            (after [sentiment_prompt text; summary_prompt text])
        end
      end
    end.
Proof.
  cbn [for_documents]. cbn zeta.
  unfold mbind at 1, action_bind, print_line, analyze_sentiment.
  unfold mbind at 1, action_bind, invoke, answer.
  cbn [console loaded clock_reads prompts disk].
  destruct (llm_invoke sv (length (prompts m)) _) as [response|e]; [|done].
  destruct (py_eval sv response) as [value|e]; [|done].
  unfold generate_summary, invoke. cbn [console loaded clock_reads prompts disk].
  assert (Hc : content (assign (set_sentiment value) doc objects doc)
               = content (objects doc)).
  { unfold assign. by rewrite decide_True. }
  rewrite Hc, length_app, Nat.add_1_r, <- app_assoc. cbn [app]. reflexivity.
Qed.







Lemma for_documents_app (documents1 documents2 : list nat) (objects : Objects)
    (m : Machine) :
  for_documents sv (documents1 ++ documents2) objects m
  = match for_documents sv documents1 objects m with
    | (Normal _, objects1, m1) => for_documents sv documents2 objects1 m1
    | (Abrupt e, objects1, m1) => (Abrupt e, objects1, m1)
    end.
Proof.
  revert objects m. induction documents1 as [|doc rest IH]; intros objects m.
  { done. }
  cbn [app]. rewrite !for_documents_cons. cbn zeta.
  repeat (case_match; try done).
Qed.
End Analysis.

Lemma analyze_documents_for_documents (sv : Services) (documents : list nat)
    (objects objects' : MainPipeline.Objects) (m m' : Machine)
    (r : completion (list nat)) :
  MainPipeline.analyze_documents sv documents objects m = (r, objects', m') →
  ∃ r0,
    MainPipeline.for_documents sv documents objects m = (r0, objects', m')
    ∧ (∀ result, r = Normal result → result = documents ∧ r0 = Normal tt)
    ∧ (∀ e, r = Abrupt e → r0 = Abrupt e).
Proof.
  unfold MainPipeline.analyze_documents.
  destruct (MainPipeline.for_documents sv documents objects m) as [[[[]|e] o] m''];
    intros [= <- <- <-]; eexists; (split; [done|]); split; intros ? [= <-]; done.
Qed.







(** X10: nothing catches an exception of the model in [analyze_documents]:
    when the sentiment call for a document raises, the exception leaves
    [analyze_documents] at once; the documents before it keep the analysis
    they were given, that document and the later ones are not touched, and
    no further prompt is sent. *)
Theorem analyze_documents_stops_at_failure (sv : Services)
    (documents1 documents2 : list nat) (doc : nat) (e : raised)
    (objects objects1 : MainPipeline.Objects) (m m1 : Machine) :
  MainPipeline.analyze_documents sv documents1 objects m
  = (Normal documents1, objects1, m1) →
  llm_invoke sv (length (prompts m1))
    (MainPipeline.sentiment_prompt (MainPipeline.content (objects1 doc)))
  = Abrupt e →
  MainPipeline.analyze_documents sv (documents1 ++ doc :: documents2) objects m
  = (Abrupt e, objects1,
     {| console := print ("Analyzing: " +:+ MainPipeline.url (objects1 doc))
                     (console m1);
        loaded := loaded m1;
        clock_reads := clock_reads m1;
        prompts := prompts m1
                   ++ [MainPipeline.sentiment_prompt
                         (MainPipeline.content (objects1 doc))];
        disk := disk m1 |}).
Proof.
  intros (r0 & Hrun & Hr & _)%analyze_documents_for_documents Hllm.
  destruct (Hr _ eq_refl) as [_ ->].
  unfold MainPipeline.analyze_documents.
  rewrite for_documents_app, Hrun, for_documents_cons. cbn zeta.
  by rewrite Hllm.
Qed.

Lemma analyze_documents_stops_at_failure_witness :
  (MainPipeline.analyze_documents Newsroom.throttled
     ([0%nat] ++ 1%nat :: [0%nat])
     (MainPipeline.objects_of Newsroom.crawled) Newsroom.boot).1.1
  = Abrupt (Exception "Rate limit reached").
Proof.
  erewrite (analyze_documents_stops_at_failure Newsroom.throttled [0%nat]
              [0%nat] 1%nat (Exception "Rate limit reached")
              (MainPipeline.objects_of Newsroom.crawled) _ Newsroom.boot _).
  - reflexivity.
  - vm_compute. reflexivity.
  - vm_compute. reflexivity.
Defined.




(** ** main.py: the results file and the script *)

Lemma string_app_assoc (s t u : string) : (s +:+ t) +:+ u = s +:+ t +:+ u.
Proof.
  induction s as [|c s IH]; [done|].
  change ((String c s +:+ t) +:+ u) with (String c ((s +:+ t) +:+ u)).
  by rewrite IH.
Qed.

Lemma written_app (documents1 documents2 : list MainPipeline.FilmDocument) :
  MainPipeline.written (documents1 ++ documents2)
  = MainPipeline.written documents1 +:+ MainPipeline.written documents2.
Proof.
  induction documents1 as [|doc rest IH]; [done|].
  cbn [app MainPipeline.written]. rewrite IH, !string_app_assoc. reflexivity.
Qed.

(** X12: [save_results] replaces the file: when [open] succeeds, the file
    holds the blocks of the documents in the order of the list, the blocks
    of a first part followed by those of the rest, whatever it held before;
    no other file changes.  When [open] raises, the exception leaves
    [save_results] and nothing changes. *)
Theorem save_results_replaces_file (sv : Services)
    (documents1 documents2 : list MainPipeline.FilmDocument)
    (filename : string) (m : Machine) :
  match open_w sv filename with
  | Normal _ =>
    ∃ m',
      MainPipeline.save_results sv (documents1 ++ documents2) filename m
      = (Normal tt, m')
      ∧ disk m' !! filename
        = Some (MainPipeline.written documents1
                +:+ MainPipeline.written documents2)
      ∧ (∀ path, path ≠ filename → disk m' !! path = disk m !! path)
      ∧ console m' = console m
  | Abrupt e =>
    MainPipeline.save_results sv (documents1 ++ documents2) filename m
    = (Abrupt e, m)
  end.
Proof.
  unfold MainPipeline.save_results, write_file.
  destruct (open_w sv filename) as [[]|e]; [|done].
  eexists. split; [done|]. cbn [disk console]. split_and!.
  - by rewrite lookup_insert_eq, written_app.
  - intros path Hne. by rewrite lookup_insert_ne.
  - done.
Qed.





(** X13: when the fetch of the news page fails with a [RequestException]
    and the results file can be opened, [main] of main.py still runs to its
    end: it loads no page and sends no prompt, prints the error and its
    three report lines with zero documents, and replaces the results file
    by an empty one. *)
Theorem main_after_fetch_failure (w : World) (sv : Services) (msg : string)
    (m : Machine) :
  fetch_failed w "https://www.kino.de/news/" msg →
  open_w sv "film_monitoring_results.txt" = Normal tt →
  MainPipeline.main w sv m
  = (Returned,
     {| console := console m
                   ++ ["Error fetching https://www.kino.de/news/: " +:+ msg;
                       "Crawled 0 documents";
                       nl +:+ "Processing complete!";
                       "Processed 0 documents"];
        loaded := loaded m;
        clock_reads := clock_reads m;
        prompts := prompts m;
        disk := <["film_monitoring_results.txt" := ""]> (disk m) |}).
Proof.
  intros Hf%fetch_failed_links Hopen.
  unfold MainPipeline.main, Main.generate_sitemap, Main.generate_sitemap_run,
    Main.try_block.
  rewrite Hf. cbn.
  unfold mbind, action_bind, MainPipeline.save_results, write_file, print_line.
  cbn. rewrite Hopen. cbn. unfold print. rewrite <- !app_assoc. reflexivity.
Qed.

Lemma main_after_fetch_failure_witness :
  (MainPipeline.main Scenario.offline Newsroom.services Newsroom.boot).1 = Returned
  ∧ disk (MainPipeline.main Scenario.offline Newsroom.services Newsroom.boot).2
      !! "film_monitoring_results.txt" = Some "".
Proof.
  rewrite (main_after_fetch_failure Scenario.offline Newsroom.services
             "Connection refused" Newsroom.boot).
  - split; [reflexivity|]. cbn [snd disk]. apply lookup_insert_eq.
  - left. reflexivity.
  - reflexivity.
Defined.






(** ** generate_sitemap.py: the script *)

(** X16: when the fetch of the news page fails with a [RequestException]
    and the directory and the file can be made, [main] of
    generate_sitemap.py returns all the same: it prints the error, reports
    zero URLs and replaces the sitemap file by an empty one. *)
Theorem sitemap_script_after_fetch_failure (w : World) (sv : Services)
    (msg : string) (m : Machine) :
  fetch_failed w "https://www.kino.de/news/" msg →
  os_makedirs sv "/Users/mg/Desktop/GitHub/ASTRAL/Code/film_monitoring/Data"
  = Normal tt →
  open_w sv "/Users/mg/Desktop/GitHub/ASTRAL/Code/film_monitoring/Data/rough_sitemap.txt"
  = Normal tt →
  GenerateSitemapScript.main w sv m
  = (Returned,
     {| console :=
          console m
          ++ ["Error fetching https://www.kino.de/news/: " +:+ msg;
              "Sitemap generated with 0 URLs.";
              "File saved to: "
              +:+ os_path_abspath sv
                    "/Users/mg/Desktop/GitHub/ASTRAL/Code/film_monitoring/Data/rough_sitemap.txt"];
        loaded := loaded m;
        clock_reads := clock_reads m;
        prompts := prompts m;
        disk :=
          <["/Users/mg/Desktop/GitHub/ASTRAL/Code/film_monitoring/Data/rough_sitemap.txt"
            := ""]> (disk m) |}).
Proof.
  intros Hf%fetch_failed_links Hdir Hopen.
  unfold GenerateSitemapScript.main, GenerateSitemap.generate_sitemap,
    GenerateSitemap.generate_sitemap_run, GenerateSitemap.try_block.
  rewrite Hf. cbn.
  unfold mbind, action_bind, answer, write_file, print_line.
  unfold GenerateSitemapScript.output_dir. rewrite Hdir.
  change ("/Users/mg/Desktop/GitHub/ASTRAL/Code/film_monitoring/Data"
          +:+ "/" +:+ "rough_sitemap.txt")
    with "/Users/mg/Desktop/GitHub/ASTRAL/Code/film_monitoring/Data/rough_sitemap.txt".
  rewrite Hopen. cbn. unfold print. rewrite <- !app_assoc. reflexivity.
Qed.

Lemma sitemap_script_after_fetch_failure_witness :
  (GenerateSitemapScript.main Scenario.not_found Newsroom.services Newsroom.boot).1
  = Returned
  ∧ disk (GenerateSitemapScript.main Scenario.not_found Newsroom.services
            Newsroom.boot).2
      !! "/Users/mg/Desktop/GitHub/ASTRAL/Code/film_monitoring/Data/rough_sitemap.txt"
    = Some "".
Proof.
  rewrite (sitemap_script_after_fetch_failure Scenario.not_found
             Newsroom.services "404 Client Error" Newsroom.boot).
  - split; [reflexivity|]. cbn [snd disk]. apply lookup_insert_eq.
  - right. eexists. split; reflexivity.
  - reflexivity.
  - reflexivity.
Defined.



Example sitemap_script_example :
  disk (GenerateSitemapScript.main (Scenario.page Scenario.links1)
          Newsroom.services Newsroom.boot).2
    !! "/Users/mg/Desktop/GitHub/ASTRAL/Code/film_monitoring/Data/rough_sitemap.txt"
  = Some ("https://www.kino.de/news/a" +:+ nl
          +:+ "https://www.kino.de/news/c" +:+ nl).
Proof. vm_compute. reflexivity. Qed.

(** ** sitemap_crawler.py *)

Lemma str_in_char_cons (c a : ascii) (rest : string) :
  str_in (String c "") (String a rest) = false
  ↔ c ≠ a ∧ str_in (String c "") rest = false.
Proof.
  cbn [str_in String.prefix]. destruct (Ascii.ascii_dec c a) as [->|Hne].
  - destruct rest; cbn; split; try done; by intros [[] _].
  - cbn. split; [done|]. by intros [_ ?].
Qed.

Lemma ascii_eqb_false (c a : ascii) : c ≠ a → Ascii.eqb a c = false.
Proof. intros Hne. apply Ascii.eqb_neq. congruence. Qed.

Lemma universal_newlines_id (s : string) :
  str_in (String "013" "") s = false → universal_newlines s = s.
Proof.
  induction s as [|a rest IH]; [done|].
  intros [Hne Hrest]%str_in_char_cons. cbn [universal_newlines].
  rewrite (ascii_eqb_false _ _ Hne). by rewrite IH.
Qed.

Lemma str_in_char_app (c : ascii) (s t : string) :
  str_in (String c "") s = false →
  str_in (String c "") t = false →
  str_in (String c "") (s +:+ t) = false.
Proof.
  intros Hs Ht. induction s as [|a rest IH]; [done|].
  apply str_in_char_cons in Hs as [Hne Hrest].
  change (String a rest +:+ t) with (String a (rest +:+ t)).
  apply str_in_char_cons. split; [done|]. by apply IH.
Qed.

Lemma split_lines_line (u t : string) :
  str_in (String "010" "") u = false →
  split_lines (u +:+ nl +:+ t) = (u +:+ nl) :: split_lines t.
Proof.
  induction u as [|a rest IH]; [done|].
  intros [Hne Hrest]%str_in_char_cons.
  change (String a rest +:+ nl +:+ t) with (String a (rest +:+ nl +:+ t)).
  cbn [split_lines]. rewrite (ascii_eqb_false _ _ Hne), (IH Hrest). done.
Qed.

Lemma rstrip_length (s : string) : (String.length (rstrip s) ≤ String.length s)%nat.
Proof.
  induction s as [|a rest IH]; [done|]. cbn [rstrip].
  destruct (rstrip rest) as [|b kept]; [destruct (isspace a)|]; cbn in *; lia.
Qed.

Lemma lstrip_length (s : string) :
  (String.length (lstrip s) ≤ String.length s)%nat.
Proof.
  induction s as [|a rest IH]; [done|]. cbn [lstrip].
  destruct (isspace a); cbn in *; lia.
Qed.

Lemma lstrip_fixed (a : ascii) (rest : string) :
  (String.length (String a rest) ≤ String.length (lstrip (String a rest)))%nat →
  isspace a = false.
Proof.
  cbn [lstrip]. destruct (isspace a); [|done].
  pose proof (lstrip_length rest). cbn. lia.
Qed.

Lemma rstrip_line (u : string) : rstrip (u +:+ nl) = rstrip u.
Proof.
  induction u as [|a rest IH]; [done|].
  change (String a rest +:+ nl) with (String a (rest +:+ nl)).
  cbn [rstrip]. by rewrite IH.
Qed.

Lemma strip_line (u : string) : strip u = u → strip (u +:+ nl) = u.
Proof.
  intros Hu. destruct u as [|a rest]; [done|].
  assert (Hspace : isspace a = false).
  { apply (lstrip_fixed a rest). unfold strip in Hu.
    pose proof (rstrip_length (lstrip (String a rest))) as Hlen.
    rewrite Hu in Hlen. done. }
  unfold strip in *. change (String a rest +:+ nl) with (String a (rest +:+ nl)).
  cbn [lstrip] in *. rewrite Hspace in *.
  change (String a (rest +:+ nl)) with (String a rest +:+ nl).
  by rewrite rstrip_line.
Qed.

Lemma read_back_written (urls : list string) :
  Forall survives_a_line urls →
  map strip (readlines (GenerateSitemapScript.written urls)) = urls.
Proof.
  intros Hurls. unfold readlines.
  assert (Hcr : str_in (String "013" "") (GenerateSitemapScript.written urls) = false).
  { induction Hurls as [|u rest (_ & Hu & _) _ IH]; [done|].
    cbn [GenerateSitemapScript.written].
    repeat apply str_in_char_app; done. }
  rewrite (universal_newlines_id _ Hcr). clear Hcr.
  induction Hurls as [|u rest (Hlf & _ & Hstrip) _ IH]; [done|].
  cbn [GenerateSitemapScript.written]. rewrite string_app_assoc.
  rewrite (split_lines_line _ _ Hlf). cbn [map].
  by rewrite (strip_line _ Hstrip), IH.
Qed.

(** X18: the sitemap file that generate_sitemap.py writes is read back by
    sitemap_crawler.py as the same URLs, in the same order, when no URL
    holds a line break or has white space at its ends. *)
Theorem sitemap_file_round_trip (urls : list string) :
  Forall survives_a_line urls →
  map strip (readlines (GenerateSitemapScript.written urls)) = urls.
Proof. apply read_back_written. Qed.

Lemma sitemap_file_round_trip_witness :
  map strip (readlines (GenerateSitemapScript.written Newsroom.urls))
  = Newsroom.urls.
Proof.
  apply (sitemap_file_round_trip Newsroom.urls).
  repeat constructor.
Defined.

(** One turn of the loop of sitemap_crawler.py, by the answer of the
    loader. *)
Lemma crawler_for_urls_cons (sv : Services) (url : string) (rest : list string)
    (documents : list SitemapCrawler.FilmDocument) (m : Machine) :
  SitemapCrawler.for_urls sv (url :: rest) documents m
  = let m1 := {| console := print ("Attempting to crawl " +:+ url) (console m);
                 loaded := loaded m ++ [url];
                 clock_reads := clock_reads m;
                 prompts := prompts m;
                 disk := disk m |} in
    let failed msg :=
      SitemapCrawler.for_urls sv rest documents
        {| console := print ("Error crawling " +:+ url +:+ ": " +:+ msg) (console m1);
           loaded := loaded m1;
           clock_reads := clock_reads m1;
           prompts := prompts m1;
           disk := disk m1 |} in
    match WebBaseLoader_load sv (length (loaded m)) url with
    | Normal (doc :: _) =>
      SitemapCrawler.for_urls sv rest
        (documents
         ++ [as_crawler_document
               (film_document url doc (datetime_now_isoformat sv (clock_reads m)))])
        {| console := console m1;
           loaded := loaded m1;
           clock_reads := S (clock_reads m1);
           prompts := prompts m1;
           disk := disk m1 |}
    | Normal [] => failed "list index out of range"
    | Abrupt (Exception msg) => failed msg
    | Abrupt (BaseException msg) => (Abrupt (BaseException msg), m1)
    end.
Proof.
  cbn [SitemapCrawler.for_urls].
  unfold mbind at 1, action_bind, SitemapCrawler.crawl_website, try_except_Exception.
  unfold mbind at 1, action_bind, print_line.
  unfold mbind at 1, action_bind, load. cbn [loaded console clock_reads prompts disk].
  destruct (WebBaseLoader_load sv (length (loaded m)) url) as [[|doc docs]|[msg|msg]];
    reflexivity.
Qed.

(** The two crawl loops side by side: they differ in what they print. *)
Lemma crawl_loops_agree (sv : Services) (urls : list string)
    (documents : list MainPipeline.FilmDocument) (m1 m2 : Machine) :
  loaded m2 = loaded m1 → clock_reads m2 = clock_reads m1 →
  prompts m2 = prompts m1 → disk m2 = disk m1 →
  ∃ r m1' m2',
    MainPipeline.for_urls sv urls documents m1 = (r, m1')
    ∧ SitemapCrawler.for_urls sv urls (map as_crawler_document documents) m2
      = (match r with
         | Normal result => Normal (map as_crawler_document result)
         | Abrupt e => Abrupt e
         end, m2')
    ∧ loaded m2' = loaded m1'
    ∧ clock_reads m2' = clock_reads m1'
    ∧ prompts m2' = prompts m1'
    ∧ disk m2' = disk m1'
    ∧ (length (console m2') + length (console m1)
       = length (console m1') + length (console m2))%nat.
Proof.
  revert documents m1 m2.
  induction urls as [|url rest IH]; intros documents m1 m2 Hl Hc Hp Hd.
  { exists (Normal documents), m1, m2. split_and!; try done. lia. }
  rewrite for_urls_cons, crawler_for_urls_cons. cbn zeta. rewrite Hl, Hc, Hp, Hd.
  destruct (WebBaseLoader_load sv (length (loaded m1)) url)
    as [[|doc docs]|[msg|msg]].
  4:{ eexists (Abrupt _), _, _. split_and!; try done. cbn [console]. unfold print.
      rewrite !length_app. cbn [length]. lia. }
  all: match goal with
       | |- ∃ r m1' m2', MainPipeline.for_urls _ _ ?ds ?a = _ ∧
                         SitemapCrawler.for_urls _ _ _ ?b = _ ∧ _ =>
         destruct (IH ds a b) as (r & m1' & m2' & H1 & H2 & ? & ? & ? & ? & Hcon);
         [done..|]
       end.
  all: try (rewrite map_app in H2; cbn [map] in H2).
  all: exists r, m1', m2'; split_and!; try done.
  all: cbn [console] in Hcon; unfold print in Hcon; rewrite !length_app in Hcon;
       cbn [length] in Hcon; lia.
Qed.

(** X19: the crawl loop of sitemap_crawler.py and [crawl_websites] of
    main.py do the same on every list of URLs: they end the same way, and
    when they return they return the same documents, with the same url,
    content, metadata and timestamp; they load the same pages, read the
    clock as often and print as many lines. *)
Theorem crawlers_agree (sv : Services) (urls : list string) (m : Machine) :
  ∃ r m1 m2,
    MainPipeline.crawl_websites sv urls m = (r, m1)
    ∧ SitemapCrawler.for_urls sv urls [] m
      = (match r with
         | Normal documents => Normal (map as_crawler_document documents)
         | Abrupt e => Abrupt e
         end, m2)
    ∧ loaded m2 = loaded m1
    ∧ clock_reads m2 = clock_reads m1
    ∧ length (console m2) = length (console m1).
Proof.
  destruct (crawl_loops_agree sv urls [] m m) as
    (r & m1 & m2 & H1 & H2 & ? & ? & _ & _ & Hcon); try done.
  exists r, m1, m2. split_and!; try done. lia.
Qed.



(** ** fire_crawler.py *)

Lemma rstrip_idempotent (s : string) : rstrip (rstrip s) = rstrip s.
Proof.
  induction s as [|a rest IH]; [done|]. cbn [rstrip].
  destruct (rstrip rest) as [|b kept] eqn:Hk.
  - destruct (isspace a) eqn:Ha; [done|]. cbn. by rewrite Ha.
  - cbn [rstrip]. cbn [rstrip] in IH. by rewrite IH.
Qed.

Lemma lstrip_rstrip (t : string) : lstrip t = t → lstrip (rstrip t) = rstrip t.
Proof.
  destruct t as [|a rest]; [done|]. intros Ht.
  assert (Ha : isspace a = false).
  { apply (lstrip_fixed a rest). by rewrite Ht. }
  cbn [rstrip]. destruct (rstrip rest); [rewrite Ha|]; cbn; by rewrite Ha.
Qed.

Lemma lstrip_idempotent (s : string) : lstrip (lstrip s) = lstrip s.
Proof.
  induction s as [|a rest IH]; [done|]. cbn [lstrip].
  destruct (isspace a) eqn:Ha; [done|]. cbn. by rewrite Ha.
Qed.

Lemma strip_idempotent (s : string) : strip (strip s) = strip s.
Proof.
  unfold strip. rewrite (lstrip_rstrip _ (lstrip_idempotent s)).
  apply rstrip_idempotent.
Qed.

(** The loop over the loaded documents, however it ends. *)
Lemma for_docs_run (sv : Services) (url : string)
    (docs : list Langchain.Document) (film_docs : list FireCrawler.FilmDocument)
    (m m' : Machine) (r : completion (list FireCrawler.FilmDocument)) :
  FireCrawler.for_docs sv url docs film_docs m = (r, m') →
  loaded m' = loaded m
  ∧ console m' = console m
  ∧ prompts m' = prompts m
  ∧ disk m' = disk m
  ∧ match r with
    | Normal result =>
      ∃ new,
        result = film_docs ++ new
        ∧ length new = length docs
        ∧ clock_reads m' = (clock_reads m + length docs)%nat
        ∧ ∀ i doc, docs !! i = Some doc →
            ∃ film_doc,
              new !! i = Some film_doc
              ∧ FireCrawler.url film_doc
                = default url (items (Langchain.metadata doc) !! "sourceURL")
              ∧ FireCrawler.metadata film_doc = Langchain.metadata doc
              ∧ strip (FireCrawler.content film_doc) = FireCrawler.content film_doc
    | Abrupt e =>
      ∃ doc, doc ∈ docs
             ∧ article_get_text sv (Langchain.page_content doc) = Abrupt e
    end.
Proof.
  revert film_docs m m' r.
  induction docs as [|doc rest IH]; intros film_docs m m' r.
  { cbn. intros [= <- <-]. split_and!; try done. exists []. rewrite app_nil_r.
    split_and!; try done; lia. }
  cbn [FireCrawler.for_docs].
  unfold mbind at 1, action_bind, FireCrawler.extract_content.
  unfold mbind at 1, action_bind, answer.
  destruct (article_get_text sv (Langchain.page_content doc)) as [article|e] eqn:Hart.
  2:{ intros [= <- <-]. split_and!; try done. exists doc. split; [|done].
      apply elem_of_cons. by left. }
  set (text := match article with Some t => strip t | None => "" end).
  assert (Htext : strip text = text).
  { unfold text. destruct article; [apply strip_idempotent|done]. }
  replace ((match article with
            | Some t => mret (strip t)
            | None => mret ""
            end : Action string) m) with (Normal text, m)
    by (unfold text; by destruct article).
  unfold mbind at 1, action_bind, now_isoformat.
  intros (Hl & Hc & Hp & Hd & Hr)%IH. cbn [loaded console prompts disk clock_reads] in *.
  split_and!; try done.
  destruct r as [result|e].
  - destruct Hr as (new & -> & Hlen & Hclock & Hnew).
    eexists (_ :: new). rewrite <- app_assoc. split; [done|]. cbn [length].
    split_and!; [lia|lia|].
    intros [|i] d Hd'.
    + injection Hd' as <-. eexists. split; [done|]. cbn. done.
    + apply (Hnew i d Hd').
  - destruct Hr as (d & Hin & Hd'). exists d. split; [|done].
    apply elem_of_cons. by right.
Qed.

(** The page and the documents [crawl_website] of fire_crawler.py works
    on. *)
Lemma fire_crawl_cases (sv : Services) (url : string) (m m' : Machine)
    (r : completion (list FireCrawler.FilmDocument)) :
  FireCrawler.crawl_website sv url m = (r, m') →
  loaded m' = loaded m ++ [url]
  ∧ prompts m' = prompts m
  ∧ disk m' = disk m
  ∧ match r with
    | Normal film_docs =>
      (∃ docs,
         FireCrawlLoader_load sv (length (loaded m)) url = Normal docs
         ∧ length film_docs = length docs
         ∧ clock_reads m' = (clock_reads m + length docs)%nat
         ∧ console m' = print ("Attempting to crawl " +:+ url) (console m)
         ∧ ∀ i doc, docs !! i = Some doc →
             ∃ film_doc,
               film_docs !! i = Some film_doc
               ∧ FireCrawler.url film_doc
                 = default url (items (Langchain.metadata doc) !! "sourceURL")
               ∧ FireCrawler.metadata film_doc = Langchain.metadata doc
               ∧ strip (FireCrawler.content film_doc)
                 = FireCrawler.content film_doc)
      ∨ (film_docs = []
         ∧ ∃ msg,
             console m'
             = print ("Error crawling " +:+ url +:+ ": " +:+ msg)
                 (print ("Attempting to crawl " +:+ url) (console m)))
    | Abrupt e => ∃ msg, e = BaseException msg
    end.
Proof.
  unfold FireCrawler.crawl_website, try_except_Exception.
  unfold mbind at 1, action_bind, print_line.
  unfold mbind at 1, action_bind, FireCrawler.fire_load.
  cbn [console loaded clock_reads prompts disk].
  destruct (FireCrawlLoader_load sv (length (loaded m)) url) as [docs|[msg|msg]].
  - destruct (FireCrawler.for_docs sv url docs [] _) as [[result|[msg|msg]] m1] eqn:Hrun;
      apply for_docs_run in Hrun as (Hl & Hc & Hp & Hd & Hr);
      cbn [console loaded clock_reads prompts disk] in *.
    + intros [= <- <-]. split_and!; try done. left.
      destruct Hr as (new & -> & Hlen & Hclock & Hnew). exists docs.
      split_and!; done.
    + unfold mbind, action_bind, print_line. cbn [mret action_ret].
      intros [= <- <-]. cbn [console loaded clock_reads prompts disk].
      split_and!; try done. right. split; [done|]. exists msg. by rewrite Hc.
    + intros [= <- <-]. split_and!; try done. by exists msg.
  - unfold mbind, action_bind, print_line. cbn [mret action_ret].
    intros [= <- <-]. cbn [console loaded clock_reads prompts disk].
    split_and!; try done. right. split; [done|]. by exists msg.
  - intros [= <- <-]. split_and!; try done. by exists msg.
Qed.

(** X21: [crawl_website] of fire_crawler.py gives all or nothing: when it
    returns, it returns either one document for every document the loader
    gave, in order, each with the metadata of its source, its "sourceURL"
    entry as url (the crawled URL when there is none) and a content without
    white space at its ends, or the empty list with one error line, also
    when the failure comes after some documents were built.  An exception
    leaves it only when it is not derived from [Exception]. *)
Theorem fire_crawl_all_or_nothing (sv : Services) (url : string)
    (m m' : Machine) (r : completion (list FireCrawler.FilmDocument)) :
  FireCrawler.crawl_website sv url m = (r, m') →
  loaded m' = loaded m ++ [url]
  ∧ match r with
    | Normal film_docs =>
      (∃ docs,
         FireCrawlLoader_load sv (length (loaded m)) url = Normal docs
         ∧ length film_docs = length docs
         ∧ clock_reads m' = (clock_reads m + length docs)%nat
         ∧ console m' = print ("Attempting to crawl " +:+ url) (console m)
         ∧ ∀ i doc, docs !! i = Some doc →
             ∃ film_doc,
               film_docs !! i = Some film_doc
               ∧ FireCrawler.url film_doc
                 = default url (items (Langchain.metadata doc) !! "sourceURL")
               ∧ FireCrawler.metadata film_doc = Langchain.metadata doc
               ∧ strip (FireCrawler.content film_doc)
                 = FireCrawler.content film_doc)
      ∨ (film_docs = []
         ∧ ∃ msg,
             console m'
             = print ("Error crawling " +:+ url +:+ ": " +:+ msg)
                 (print ("Attempting to crawl " +:+ url) (console m)))
    | Abrupt e => ∃ msg, e = BaseException msg
    end.
Proof. intros (? & _ & _ & ?)%fire_crawl_cases. done. Qed.

Lemma fire_crawl_all_or_nothing_witness :
  loaded (FireCrawler.crawl_website Newsroom.services
            "https://www.kino.de/news/a" Newsroom.boot).2
  = loaded Newsroom.boot ++ ["https://www.kino.de/news/a"].
Proof.
  destruct (FireCrawler.crawl_website Newsroom.services
              "https://www.kino.de/news/a" Newsroom.boot) as [r m'] eqn:Hrun.
  exact (proj1 (fire_crawl_all_or_nothing _ _ _ _ _ Hrun)).
Defined.

Example fire_crawl_example :
  (FireCrawler.crawl_website Newsroom.services "https://www.kino.de/news/a"
     Newsroom.boot).1
  = Normal
      [{| FireCrawler.url := "https://www.kino.de/news/a";
          FireCrawler.content := "One";
          FireCrawler.metadata :=
            Langchain.metadata
              (Newsroom.article "https://www.kino.de/news/a" "");
          FireCrawler.timestamp := "2024-11-04T10:00:00" |};
       {| FireCrawler.url := "https://www.kino.de/news/a";
          FireCrawler.content := "";
          FireCrawler.metadata :=
            Langchain.metadata
              (Newsroom.article "https://www.kino.de/news/a" "");
          FireCrawler.timestamp := "2024-11-04T10:00:01" |}].
Proof. vm_compute. reflexivity. Qed.

Lemma print_documents_returns (documents : list FireCrawler.FilmDocument)
    (m : Machine) :
  ∃ lines,
    FireCrawler.print_documents documents m
    = (Normal tt, with_console (console m ++ lines) m)
    ∧ length lines = (6 * length documents)%nat.
Proof.
  revert m. induction documents as [|doc rest IH]; intros m.
  { exists []. cbn. rewrite app_nil_r. by destruct m. }
  cbn [FireCrawler.print_documents].
  do 6 (unfold mbind at 1, action_bind, print_line).
  edestruct IH as (lines & -> & Hlen).
  eexists (_ :: _ :: _ :: _ :: _ :: _ :: lines). unfold with_console, print. cbn.
  rewrite <- !app_assoc. cbn. split; [reflexivity|]. rewrite Hlen. lia.
Qed.

(** X22: [main] of fire_crawler.py asks the loader for its one page and for
    nothing else, writes no file and sends no prompt.  Unless an exception
    outside the [Exception] classes interrupts the crawl it returns: it has
    printed the total [n] of documents and, after the line of the attempt,
    six lines for every document, or, after a failed crawl, the error line
    and a total of zero. *)
Theorem fire_main_one_page (sv : Services) (m m' : Machine)
    (r : completion unit) :
  FireCrawler.main sv m = (r, m') →
  loaded m'
  = loaded m
    ++ ["https://www.kino.de/news/hochzeit-auf-den-ersten-blick-diese-neuerungen-erwarten-euch-2024/"]
  ∧ disk m' = disk m
  ∧ prompts m' = prompts m
  ∧ match r with
    | Normal _ =>
      ∃ n,
        (nl +:+ "Total documents crawled: " +:+ pretty n) ∈ console m'
        ∧ (length (console m') = length (console m) + 2 + 6 * n
           ∨ n = 0 ∧ length (console m') = length (console m) + 3)%nat
    | Abrupt e => ∃ msg, e = BaseException msg
    end.
Proof.
  unfold FireCrawler.main. cbn zeta. unfold mbind at 1, action_bind.
  destruct (FireCrawler.crawl_website sv _ m) as [[documents|e] m1] eqn:Hcrawl;
    apply fire_crawl_cases in Hcrawl as (Hl & Hp & Hd & Hr).
  2:{ intros [= <- <-]. done. }
  unfold mbind at 1, action_bind, print_line.
  match goal with
  | |- FireCrawler.print_documents documents ?m0 = _ → _ =>
    destruct (print_documents_returns documents m0) as (lines & -> & Hlen)
  end.
  intros [= <- <-]. cbn [loaded disk prompts console with_console].
  split_and!; try done.
  exists (length documents). split.
  - unfold print. apply elem_of_app. left. apply elem_of_app. right.
    apply elem_of_cons. by left.
  - unfold print. rewrite !length_app. cbn [length].
    destruct Hr as [(docs & _ & _ & _ & -> & _)|[-> (msg & ->)]].
    + left. unfold print. rewrite length_app. cbn [length]. lia.
    + right. unfold print. rewrite !length_app. cbn [length] in *. lia.
Qed.

Lemma fire_main_one_page_witness :
  loaded (FireCrawler.main Newsroom.services Newsroom.boot).2
  = loaded Newsroom.boot
    ++ ["https://www.kino.de/news/hochzeit-auf-den-ersten-blick-diese-neuerungen-erwarten-euch-2024/"].
Proof.
  destruct (FireCrawler.main Newsroom.services Newsroom.boot) as [r m'] eqn:Hrun.
  exact (proj1 (fire_main_one_page _ _ _ _ Hrun)).
Defined.

(** ** An href that [urljoin] cannot join *)

(** X23: after a successful fetch, when [urljoin] resolves the hrefs before
    an href it raises a [ValueError] on, and the URLs they resolve to hold no
    candidate or fewer candidates than [max_articles], the [ValueError]
    leaves both functions: nothing is printed and no list is returned. *)
Theorem generate_sitemap_urljoin_error (w : World) (start_url : string)
    (scanned rest urls : list string) (href msg : string) (max_articles : Z)
    (out : stdout) :
  fetched w start_url (scanned ++ href :: rest) →
  resolves w scanned urls →
  urljoin w Main.base_domain href = ValueError msg →
  first_occurrences (filter (λ u, qualifies u) urls) = []
  ∨ Z.of_nat (length (first_occurrences (filter (λ u, qualifies u) urls)))
    < max_articles →
  Main.generate_sitemap w start_url max_articles out
  = (Raise (OtherException msg), out)
  ∧ GenerateSitemap.generate_sitemap w start_url max_articles out
    = (Raise (OtherException msg), out).
Proof.
  intros Hf Hres Hhref Hcap.
  assert (Hnew : ∀ u : string, u ∉ visited empty_frame) by set_solver.
  pose proof (for_links_urljoin_error w max_articles scanned rest urls href msg
                empty_frame Hres Hhref) as Hloop.
  rewrite (filter_all _ _ Hnew) in Hloop. specialize (Hloop Hcap).
  destruct (Main.for_links w max_articles (scanned ++ href :: rest) empty_frame)
    as [r fr] eqn:Hrun.
  cbn [fst] in Hloop. subst r.
  apply (fetched_raises w start_url _ max_articles out fr _ Hf Hrun).
Qed.

Lemma generate_sitemap_urljoin_error_witness :
  Main.generate_sitemap (Scenario.bracket_page ["/news/a"; "http://["; "/news/c"])
    "https://www.kino.de/news/" 3 ["Starting"]
  = (Raise (OtherException "Invalid IPv6 URL"), ["Starting"]).
Proof.
  refine (proj1 (generate_sitemap_urljoin_error
                   (Scenario.bracket_page ["/news/a"; "http://["; "/news/c"])
                   "https://www.kino.de/news/" ["/news/a"] ["/news/c"]
                   ["https://www.kino.de/news/a"] "http://[" "Invalid IPv6 URL"
                   3 ["Starting"] _ _ _ _)).
  - exists (Scenario.ok_response "<html>"). repeat split; reflexivity.
  - repeat constructor.
  - reflexivity.
  - right. vm_compute. reflexivity.
Defined.
